(** * iob_core: build orchestration of hardware IP cores

    A shallow embedding of [lib/scripts/iob_core.py]: the directory tree
    the script works on, the POSIX path functions it calls, the core
    descriptor (a Python object, i.e. a dictionary of attributes), and the
    functions of the script itself.  The external generators
    ([copy_srcs], [config_gen], [param_gen], [io_gen], [reg_gen],
    [verilog_gen], [doc_gen]) are not part of the script; they are taken
    as a record of unknown functions on the descriptor and the tree.

    The tree is a plain tree of directories and files: no symbolic links,
    no permissions, one process.  A Python [set] is a [gset]; a loop over
    it takes the elements in the order of [elements], of which the proofs
    use only that it lists every element once. *)

From Stdlib Require Import Ascii String List.
From stdpp Require Import base tactics option list strings gmap sets.

Local Open Scope string_scope.
Local Open Scope list_scope.
Local Set Warnings "-register-all,-clear-no-such-hyp".

(** ** Strings as Python uses them *)

Module Str.

(** [s.split(sep)] for a one-character separator: never the empty list,
    [''.split('.') == ['']]. *)
Fixpoint split (sep : ascii) (s : string) : list string :=
  match s with
  | EmptyString => [EmptyString]
  | String c s' =>
      if Ascii.eqb c sep then EmptyString :: split sep s'
      else match split sep s' with
           | [] => [String c EmptyString]
           | w :: ws => String c w :: ws
           end
  end.

(** [sep.join(l)] *)
Fixpoint join (sep : ascii) (l : list string) : string :=
  match l with
  | [] => EmptyString
  | [w] => w
  | w :: ws => w +:+ String sep (join sep ws)
  end.

(** [sep in s] *)
Fixpoint mem (sep : ascii) (s : string) : bool :=
  match s with
  | EmptyString => false
  | String c s' => Ascii.eqb c sep || mem sep s'
  end.

(** [s.startswith(c)] and [s.endswith(c)] for one character *)
Definition startswith (c : ascii) (s : string) : bool :=
  match s with
  | String c' _ => Ascii.eqb c' c
  | EmptyString => false
  end.

Fixpoint endswith (c : ascii) (s : string) : bool :=
  match s with
  | EmptyString => false
  | String c' EmptyString => Ascii.eqb c' c
  | String _ s' => endswith c s'
  end.

(** [sub in s], as a proposition *)
Definition contains (s sub : string) : Prop :=
  exists pre post, s = pre +:+ sub +:+ post.

End Str.

(** ** POSIX paths ([posixpath]) *)

Module Path.

Definition sep : ascii := "/"%char.

(** A path in normal form: the names from the root down. *)
Definition t := list string.

(** [os.path.join(a, b)] *)
Definition join (a b : string) : string :=
  if Str.startswith sep b then b
  else if bool_decide (a = "") || Str.endswith sep a then a +:+ b
  else a +:+ String sep b.

(** One step of [os.path.normpath]: empty and [.] components are dropped,
    [..] leaves the directory reached so far (and stays at the root). *)
Definition norm_step (acc : t) (c : string) : t :=
  if bool_decide (c = "") || bool_decide (c = ".") then acc
  else if bool_decide (c = "..") then removelast acc
  else acc ++ [c].

(** [os.path.abspath(p)] as a list of names, [cwd] being the working
    directory in normal form.  This is the normalisation by the text of
    [p] alone, as [os.path.abspath] and [os.path.relpath] do it.  The
    file-system calls below look [p] up at this list of names.  The kernel
    reaches the same entry when [p] is [direct] and the working
    directory is a directory of the tree; for a path with [..] after a
    name ([name/..], where [name] may be missing or a file) it need not,
    and the statements about such calls take such paths ([direct_in]). *)
Definition abspath (cwd : t) (p : string) : t :=
  fold_left norm_step (Str.split sep p)
            (if Str.startswith sep p then [] else cwd).

(** The components that name no entry: empty, [.] and [..]. *)
Definition dot (c : string) : bool :=
  bool_decide (c = "") || bool_decide (c = ".") || bool_decide (c = "..").

Fixpoint drop_dots (l : list string) : list string :=
  match l with
  | c :: l' => if dot c then drop_dots l' else l
  | [] => []
  end.

(** A direct path: after the leading [/], [.] and [..], which are taken
    from the root or from the working directory, only names follow.  The
    kernel then walks down through the very names that [abspath] lists,
    and fails where one of them is missing or is a file in the way. *)
Definition direct (p : string) : bool :=
  forallb (fun c => negb (dot c)) (drop_dots (Str.split sep p)).

(** The text of an absolute path. *)
Definition to_string (p : t) : string := String sep (Str.join sep p).

Fixpoint common_prefix (l1 l2 : t) : t :=
  match l1, l2 with
  | x :: l1', y :: l2' =>
      if bool_decide (x = y) then x :: common_prefix l1' l2' else []
  | _, _ => []
  end.

(** [os.path.relpath(path, start)] *)
Definition relpath (cwd : t) (path start : string) : string :=
  let start_list := abspath cwd start in
  let path_list := abspath cwd path in
  let i := length (common_prefix start_list path_list) in
  let rel_list := replicate (length start_list - i) ".." ++ drop i path_list in
  match rel_list with
  | [] => "."
  | _ => Str.join sep rel_list
  end.

(** A name a directory entry can have. *)
Definition valid_name (n : string) : Prop :=
  n <> "" /\ n <> "." /\ n <> ".." /\ Str.mem sep n = false.

End Path.

(** ** Python exceptions raised by the script and by the calls it makes *)

Inductive exn :=
  | Exception (msg : string)
  | AssertionError (msg : string)
  | AttributeError (attr : string)
  | TypeError
  | FileNotFoundError
  | FileExistsError
  | NotADirectoryError
  | IsADirectoryError
  | SameFileError.

(** ** The directory tree *)

Module FS.

(** A directory lists its entries in the order [os.scandir] reports them. *)
Inductive node :=
  | File (data : string)
  | Dir (entries : list (string * node)).

Definition is_dir (n : node) : bool :=
  match n with Dir _ => true | File _ => false end.

Fixpoint lookup_entry (name : string) (es : list (string * node)) : option node :=
  match es with
  | [] => None
  | (k, x) :: es' => if bool_decide (k = name) then Some x else lookup_entry name es'
  end.

Fixpoint set_entry (name : string) (x : node) (es : list (string * node))
  : list (string * node) :=
  match es with
  | [] => [(name, x)]
  | (k, y) :: es' =>
      if bool_decide (k = name) then (k, x) :: es' else (k, y) :: set_entry name x es'
  end.

Fixpoint del_entry (name : string) (es : list (string * node))
  : list (string * node) :=
  match es with
  | [] => []
  | (k, y) :: es' =>
      if bool_decide (k = name) then es' else (k, y) :: del_entry name es'
  end.

(** The node a normal-form path leads to. *)
Fixpoint get (p : Path.t) (n : node) : option node :=
  match p with
  | [] => Some n
  | c :: p' =>
      match n with
      | Dir es => match lookup_entry c es with Some x => get p' x | None => None end
      | File _ => None
      end
  end.

Fixpoint mkdir_chain (p : Path.t) : node :=
  match p with
  | [] => Dir []
  | c :: p' => Dir [(c, mkdir_chain p')]
  end.

(** [os.makedirs(p, exist_ok=True)]: every missing directory on the way is
    created, an existing directory is kept, a file in the way is an error. *)
Fixpoint makedirs (p : Path.t) (n : node) : exn + node :=
  match p with
  | [] => match n with Dir _ => inr n | File _ => inl FileExistsError end
  | c :: p' =>
      match n with
      | File _ => inl NotADirectoryError
      | Dir es =>
          match lookup_entry c es with
          | Some x =>
              match makedirs p' x with
              | inr x' => inr (Dir (set_entry c x' es))
              | inl e => inl e
              end
          | None => inr (Dir (set_entry c (mkdir_chain p') es))
          end
      end
  end.

(** [os.remove(p)]: unlinks a file; a directory or a missing entry is an
    error. *)
Fixpoint remove (p : Path.t) (n : node) : exn + node :=
  match p with
  | [] => inl IsADirectoryError
  | c :: p' =>
      match n with
      | File _ => inl NotADirectoryError
      | Dir es =>
          match lookup_entry c es with
          | None => inl FileNotFoundError
          | Some x =>
              match p' with
              | [] =>
                  match x with
                  | File _ => inr (Dir (del_entry c es))
                  | Dir _ => inl IsADirectoryError
                  end
              | _ :: _ =>
                  match remove p' x with
                  | inr x' => inr (Dir (set_entry c x' es))
                  | inl e => inl e
                  end
              end
          end
      end
  end.

(** [open(p, 'wb').write(data)]: creates or truncates the file [p]. *)
Fixpoint write (p : Path.t) (data : string) (n : node) : exn + node :=
  match p with
  | [] => inl IsADirectoryError
  | c :: p' =>
      match n with
      | File _ => inl NotADirectoryError
      | Dir es =>
          match p' with
          | [] =>
              match lookup_entry c es with
              | Some (Dir _) => inl IsADirectoryError
              | _ => inr (Dir (set_entry c (File data) es))
              end
          | _ :: _ =>
              match lookup_entry c es with
              | None => inl FileNotFoundError
              | Some x =>
                  match write p' data x with
                  | inr x' => inr (Dir (set_entry c x' es))
                  | inl e => inl e
                  end
              end
          end
      end
  end.

(** [open(p, 'rb').read()]: the content of the file [p]; a directory, a
    missing entry and a file on the way to [p] are three different
    errors. *)
Fixpoint read (p : Path.t) (n : node) : exn + string :=
  match p with
  | [] => match n with File data => inr data | Dir _ => inl IsADirectoryError end
  | c :: p' =>
      match n with
      | File _ => inl NotADirectoryError
      | Dir es =>
          match lookup_entry c es with
          | Some x => read p' x
          | None => inl FileNotFoundError
          end
      end
  end.

(** [shutil.copyfile(src, dst)]: the same entry twice is refused; else
    the source is opened and read, then the destination written. *)
Definition copyfile (src dst : Path.t) (n : node) : exn + node :=
  if bool_decide (src = dst) && bool_decide (is_Some (get src n)) then inl SameFileError
  else
    match read src n with
    | inr data => write dst data n
    | inl e => inl e
    end.

Definition dirnames (es : list (string * node)) : list string :=
  map fst (List.filter (fun e => is_dir (snd e)) es).

Definition filenames (es : list (string * node)) : list string :=
  map fst (List.filter (fun e => negb (is_dir (snd e))) es).

(** [os.walk(top)] on the directory [n] found at [top]: the triple of the
    directory itself first, then the walk of each sub-directory in turn
    under the name [os.path.join(top, dirname)].  A node that is not a
    directory yields nothing. *)
Fixpoint walk (top : string) (n : node) : list (string * list string * list string) :=
  match n with
  | File _ => []
  | Dir es =>
      (top, dirnames es, filenames es)
      :: (fix sub (l : list (string * node)) :=
            match l with
            | [] => []
            | (k, x) :: l' => walk (Path.join top k) x ++ sub l'
            end) es
  end.

Definition valid_nameb (n : string) : bool :=
  negb (bool_decide (n = "")) && negb (bool_decide (n = "."))
  && negb (bool_decide (n = "..")) && negb (Str.mem Path.sep n).

(** Well-formed trees: in every directory the names are distinct and are
    names an entry can have. *)
Fixpoint wf (n : node) : bool :=
  match n with
  | File _ => true
  | Dir es =>
      bool_decide (NoDup (map fst es)) && forallb valid_nameb (map fst es)
      && (fix all (l : list (string * node)) :=
            match l with
            | [] => true
            | (_, x) :: l' => wf x && all l'
            end) es
  end.


Definition is_file_at (n : node) (p : Path.t) : Prop :=
  exists d, get p n = Some (File d).

Definition is_dir_at (n : node) (p : Path.t) : Prop :=
  exists es, get p n = Some (Dir es).

End FS.

(** ** The core descriptor

    A descriptor is a Python object: its class and a dictionary from
    attribute names to values. *)

Inductive value :=
  | VStr (s : string)
  | VBool (b : bool)
  | VList (l : list string).

Record obj := Obj {
  class_name : string;              (* [self.__class__.__name__] *)
  attrs : gmap string value;        (* [self.__dict__] *)
}.

Definition setattr (k : string) (v : value) (self : obj) : obj :=
  Obj (class_name self) (<[k:=v]> (attrs self)).

(** Modelled from the spec: [set_default_attribute] is a method of
    [iob_module], which is not among the sources.  The spec: any field not
    explicitly supplied receives a fixed default; explicit values are never
    overwritten. *)
Definition set_default_attribute (k : string) (v : value) (self : obj) : obj :=
  match attrs self !! k with
  | Some _ => self
  | None => setattr k v self
  end.

(** Truth value of an object, as [assert] and [if] take it. *)
Definition truthy (v : value) : bool :=
  match v with
  | VStr s => negb (bool_decide (s = ""))
  | VBool b => b
  | VList l => negb (bool_decide (l = []))
  end.

(** The purpose directories (the dictionary [PURPOSE_DIRS] that
    [__init__] stores on every descriptor), in insertion order. *)
Definition PURPOSE_DIRS : list (string * string) :=
  [("hardware", "hardware/src");
   ("simulation", "hardware/simulation/src");
   ("fpga", "hardware/fpga/src")].

Section IobCore.

(** The register phase returns two values that the script only hands on. *)
Context {csr_gen_t reg_table_t : Type}.

(** [iob_colors.FAIL] and [iob_colors.ENDC]; the text Python prints for a
    list inside an f-string. *)
Variables (FAIL ENDC : string) (repr_list : list string -> string).

(** [f"{v}"] *)
Definition format (v : value) : string :=
  match v with
  | VStr s => s
  | VBool true => "True"
  | VBool false => "False"
  | VList l => repr_list l
  end.

(** What a run leaves in the log: one entry per call the constructor
    makes, in the order of the calls.  The log is not part of the program;
    it is what the ordering properties are stated on. *)
Inductive event :=
  | EvSuperInit
  | EvFindModuleSetupDir
  | EvCreateBuildDir
  | EvFlowsSetup
  | EvCopyRenameSetupDirectory
  | EvConfigBuildMk
  | EvGenerateConfs
  | EvGenerateParams
  | EvGeneratePorts
  | EvGenerateCsr (result : exn + (csr_gen_t * reg_table_t))
  | EvReplaceSnippetIncludes
  | EvRemoveDuplicateSources
  | EvGenerateDocs (csr_gen_obj : csr_gen_t) (reg_table : reg_table_t).

Record world := World {
  fs : FS.node;                (* the root directory *)
  cwd : Path.t;                (* the working directory, in normal form *)
  stdout : list string;        (* the lines printed *)
  trace : list event;
}.

Definition set_fs (n : FS.node) (w : world) : world :=
  World n (cwd w) (stdout w) (trace w).

(** Where the file-system calls of the model are those of the kernel:
    the working directory is a directory of the tree and the path is
    direct, so that every [..] is taken from a directory that is there. *)
Definition direct_in (w : world) (p : string) : bool :=
  match FS.get (cwd w) (fs w) with
  | Some (FS.Dir _) => Path.direct p
  | _ => false
  end.

(** A statement of the script: it changes the world and returns a value or
    raises. *)
Definition M (A : Type) : Type := world -> world * (exn + A).

Definition ret {A} (a : A) : M A := fun w => (w, inr a).
Definition raise {A} (e : exn) : M A := fun w => (w, inl e).
Definition bind {A B} (m : M A) (k : A -> M B) : M B :=
  fun w => match m w with
           | (w', inr a) => k a w'
           | (w', inl e) => (w', inl e)
           end.

Notation "x <- m ;; k" := (bind m (fun x => k))
  (at level 100, m at next level, right associativity).
Notation "m ;;; k" := (bind m (fun _ => k))
  (at level 100, right associativity).

Definition log (e : event) : M unit :=
  fun w => (World (fs w) (cwd w) (stdout w) (trace w ++ [e]), inr tt).

Definition print (line : string) : M unit :=
  fun w => (World (fs w) (cwd w) (stdout w ++ [line]) (trace w), inr tt).

Definition getcwd : M string := fun w => (w, inr (Path.to_string (cwd w))).

(** A file-system call at the path text [p]; the empty text names no
    entry. *)
Definition fs_call (f : Path.t -> FS.node -> exn + FS.node) (p : string) : M unit :=
  fun w =>
    if bool_decide (p = "") then (w, inl FileNotFoundError)
    else match f (Path.abspath (cwd w) p) (fs w) with
         | inr n => (set_fs n w, inr tt)
         | inl e => (w, inl e)
         end.

Definition os_makedirs : string -> M unit := fs_call FS.makedirs.
Definition os_remove : string -> M unit := fs_call FS.remove.

Definition shutil_copyfile (src dst : string) : M unit :=
  fun w =>
    if bool_decide (src = "") || bool_decide (dst = "") then (w, inl FileNotFoundError)
    else match FS.copyfile (Path.abspath (cwd w) src) (Path.abspath (cwd w) dst) (fs w) with
         | inr n => (set_fs n w, inr tt)
         | inl e => (w, inl e)
         end.

(** [os.walk(top)]: a path that is not a directory yields nothing. *)
Definition os_walk (w : world) (top : string) : list (string * list string * list string) :=
  if bool_decide (top = "") then []
  else match FS.get (Path.abspath (cwd w) top) (fs w) with
       | Some n => FS.walk top n
       | None => []
       end.

(** [self.k] *)
Definition getattr (self : obj) (k : string) : M value :=
  match attrs self !! k with
  | Some v => ret v
  | None => raise (AttributeError k)
  end.

(** An attribute used as a path must be a string. *)
Definition getattr_str (self : obj) (k : string) : M string :=
  v <- getattr self k ;;
  match v with
  | VStr s => ret s
  | _ => raise TypeError
  end.

Fixpoint for_each {A} (l : list A) (body : A -> M unit) : M unit :=
  match l with
  | [] => ret tt
  | x :: l' => body x ;;; for_each l' body
  end.

(** The collaborators of the script.  Each generator works on the
    descriptor it is handed and on the tree, and may raise. *)
Record externals := Externals {
  super_init : obj -> FS.node -> obj * FS.node * (exn + unit);
  get_lib_dir : string;
  flows_setup : obj -> FS.node -> obj * FS.node * (exn + unit);
  copy_rename_setup_directory : obj -> FS.node -> obj * FS.node * (exn + unit);
  config_build_mk : obj -> FS.node -> obj * FS.node * (exn + unit);
  generate_confs : obj -> FS.node -> obj * FS.node * (exn + unit);
  generate_params : obj -> FS.node -> obj * FS.node * (exn + unit);
  generate_ports : obj -> FS.node -> obj * FS.node * (exn + unit);
  generate_csr : obj -> FS.node -> obj * FS.node * (exn + (csr_gen_t * reg_table_t));
  replace_includes : value -> value -> value -> FS.node -> FS.node * (exn + unit);
  generate_docs : obj -> csr_gen_t -> reg_table_t -> FS.node -> obj * FS.node * (exn + unit);
}.

Variable ext : externals.

(** A call of a generator on [self]: the descriptor comes back as the
    generator left it. *)
Definition call {A} (f : obj -> FS.node -> obj * FS.node * (exn + A)) (self : obj)
  : M (obj * A) :=
  fun w => match f self (fs w) with
           | (self', n, inr a) => (set_fs n w, inr (self', a))
           | (_, n, inl e) => (set_fs n w, inl e)
           end.

Definition call_ (f : obj -> FS.node -> obj * FS.node * (exn + unit)) (self : obj)
  : M obj :=
  r <- call f self ;; ret (fst r).

(** *** [find_common_deep] *)

(** The set built for one [path]: the path of every file below it,
    relative to it. *)
Definition relative_files (w : world) (path : string) : gset string :=
  list_to_set
    (flat_map (fun '(root, _, files) =>
                 map (fun file => Path.relpath (cwd w) (Path.join root file) path) files)
              (os_walk w path)).

Definition find_common_deep (w : world) (path1 path2 : string) : gset string :=
  relative_files w path1 ∩ relative_files w path2.

(** *** [find_module_setup_dir] *)

(** [file.split(".")[0]] *)
Definition split_dot_0 (file : string) : string :=
  hd "" (Str.split "."%char file).

Fixpoint first_matching_file (cls : string) (files : list string) : bool :=
  match files with
  | [] => false
  | file :: files' =>
      if bool_decide (split_dot_0 file = cls) then true
      else first_matching_file cls files'
  end.

Fixpoint search_walk (cls : string) (l : list (string * list string * list string))
  : option string :=
  match l with
  | [] => None
  | (root, _, files) :: l' =>
      if first_matching_file cls files then Some root else search_walk cls l'
  end.

Definition setup_not_found (name search_path : string) : string :=
  FAIL +:+ "Setup dir of " +:+ name +:+ " not found in " +:+ search_path +:+ "!" +:+ ENDC.

Definition find_module_setup_dir (core : obj) (search_path : string) : M string :=
  fun w =>
    match search_walk (class_name core) (os_walk w search_path) with
    | Some root => ret root w
    | None =>
        (name <- getattr core "name" ;;
         raise (Exception (setup_not_found (format name) search_path))) w
    end.

(** *** The methods of [iob_core] *)

Definition __create_build_dir (self : obj) : M unit :=
  top <- getattr self "is_top_module" ;;
  (if truthy top then ret tt
   else name <- getattr self "name" ;;
        raise (AssertionError
                 (FAIL +:+ "Module " +:+ format name +:+ " is not a top module!" +:+ ENDC))) ;;;
  build_dir <- getattr_str self "build_dir" ;;
  os_makedirs build_dir ;;;
  os_makedirs (build_dir +:+ "/hardware/src") ;;;
  os_makedirs (build_dir +:+ "/hardware/simulation/src") ;;;
  os_makedirs (build_dir +:+ "/hardware/fpga/src") ;;;
  os_makedirs (build_dir +:+ "/doc") ;;;
  os_makedirs (build_dir +:+ "/doc/tsrc") ;;;
  shutil_copyfile (get_lib_dir ext +:+ "/build.mk") (build_dir +:+ "/Makefile").

Definition print_build_dir (self : obj) : M obj :=
  name <- getattr self "name" ;;
  version <- getattr self "version" ;;
  let self := setattr "build_dir" (VStr ("../" +:+ format name +:+ "_" +:+ format version)) self in
  build_dir <- getattr self "build_dir" ;;
  print (format build_dir) ;;;
  ret self.

Definition _remove_duplicate_sources (self : obj) : M unit :=
  build_dir <- getattr_str self "build_dir" ;;
  for_each (map snd PURPOSE_DIRS) (fun subfolder =>
    if bool_decide (subfolder = "hardware/src") then ret tt
    else
      common_srcs <- (fun w => ret (find_common_deep w (Path.join build_dir "hardware/src")
                                                     (Path.join build_dir subfolder)) w) ;;
      for_each (elements common_srcs) (fun src =>
        os_remove (Path.join (Path.join build_dir subfolder) src))).

Definition _replace_snippet_includes (self : obj) : M unit :=
  setup_dir <- getattr self "setup_dir" ;;
  build_dir <- getattr self "build_dir" ;;
  ignore_snippets <- getattr self "ignore_snippets" ;;
  fun w => match replace_includes ext setup_dir build_dir ignore_snippets (fs w) with
           | (n, r) => (set_fs n w, r)
           end.

(** [reg_gen.generate_csr(self)]; the log keeps what the call returned. *)
Definition call_generate_csr (self : obj) : M (obj * (csr_gen_t * reg_table_t)) :=
  fun w => match call (generate_csr ext) self w with
           | (w', res) =>
               let result := match res with
                             | inr (_, r) => inr r
                             | inl e => inl e
                             end in
               (World (fs w') (cwd w') (stdout w') (trace w' ++ [EvGenerateCsr result]), res)
           end.

(** [iob_core.__init__(self, *args, is_top, purpose, topdir, **kwargs)];
    the positional and the other keyword arguments only reach the
    constructor of the super class. *)
Definition __init__ (self : obj) (is_top : bool) (purpose topdir : string) : M obj :=
  log EvSuperInit ;;;
  self <- call_ (super_init ext) self ;;
  let self := set_default_attribute "csr_if" (VStr "iob") self in
  let self := set_default_attribute "version" (VStr "1.0") self in
  version <- getattr self "version" ;;
  let self := set_default_attribute "previous_version" version self in
  let self := set_default_attribute "setup_dir" (VStr "") self in
  let self := set_default_attribute "build_dir" (VStr "") self in
  let self := set_default_attribute "rw_overlap" (VBool false) self in
  let self := set_default_attribute "is_top_module" (VBool is_top) self in
  let self := set_default_attribute "use_netlist" (VBool false) self in
  let self := set_default_attribute "is_system" (VBool false) self in
  let self := set_default_attribute "board_list" (VList []) self in
  let self := set_default_attribute "purpose" (VStr purpose) self in
  self <- (if is_top then
             name <- getattr self "name" ;;
             version <- getattr self "version" ;;
             ret (setattr "build_dir"
                    (VStr ("../" +:+ format name +:+ "_" +:+ format version +:+ "/build")) self)
           else ret (setattr "build_dir" (VStr topdir) self)) ;;
  search_path <- getcwd ;;
  log EvFindModuleSetupDir ;;;
  setup_dir <- find_module_setup_dir self search_path ;;
  let self := setattr "setup_dir" (VStr setup_dir) self in
  (if is_top then log EvCreateBuildDir ;;; __create_build_dir self else ret tt) ;;;
  self <- (if is_top then log EvFlowsSetup ;;; call_ (flows_setup ext) self else ret self) ;;
  log EvCopyRenameSetupDirectory ;;;
  self <- call_ (copy_rename_setup_directory ext) self ;;
  log EvConfigBuildMk ;;;
  self <- call_ (config_build_mk ext) self ;;
  log EvGenerateConfs ;;;
  self <- call_ (generate_confs ext) self ;;
  log EvGenerateParams ;;;
  self <- call_ (generate_params ext) self ;;
  log EvGeneratePorts ;;;
  self <- call_ (generate_ports ext) self ;;
  r <- call_generate_csr self ;;
  let '(self, (csr_gen_obj, reg_table)) := r in
  if is_top then
    log EvReplaceSnippetIncludes ;;;
    _replace_snippet_includes self ;;;
    log EvRemoveDuplicateSources ;;;
    _remove_duplicate_sources self ;;;
    log (EvGenerateDocs csr_gen_obj reg_table) ;;;
    call_ (fun s => generate_docs ext s csr_gen_obj reg_table) self
  else ret self.


(** *** Statements about runs *)

(** The steps that are the business of the top descriptor alone. *)
Definition top_only (e : event) : Prop :=
  match e with
  | EvCreateBuildDir | EvFlowsSetup | EvReplaceSnippetIncludes
  | EvRemoveDuplicateSources | EvGenerateDocs _ _ => True
  | _ => False
  end.

(** [m] leaves the log alone. *)
Definition silent {A} (m : M A) : Prop :=
  forall w w' r, m w = (w', r) -> trace w' = trace w.

(** Whatever [m] does, it only logs events of [S]. *)
Definition emits {A} (S : event -> Prop) (m : M A) : Prop :=
  forall w w' r, m w = (w', r) -> exists t, trace w' = trace w ++ t /\ Forall S t.

(** When [m] returns, what it has logged satisfies [P]. *)
Definition traced {A} (m : M A) (P : list event -> Prop) : Prop :=
  forall w w' a, m w = (w', inr a) -> exists t, trace w' = trace w ++ t /\ P t.

(** When [m] returns, the value satisfies [Q]. *)
Definition returns {A} (m : M A) (Q : A -> Prop) : Prop :=
  forall w w' a, m w = (w', inr a) -> Q a.



End IobCore.

(** ** The resolver in the words of the spec

    The spec describes the test of [find_module_setup_dir] as "base name
    (extension stripped) exactly equals the type name".  Stripping the
    extension is what [os.path.splitext] does: the name up to its last
    dot, a name that only starts with dots having no extension. *)

Definition spec_strip_extension (file : string) : string :=
  let parts := Str.split "."%char file in
  if forallb (fun c => bool_decide (c = "")) (removelast parts) then file
  else Str.join "."%char (removelast parts).

Fixpoint spec_search_walk (cls : string) (l : list (string * list string * list string))
  : option string :=
  match l with
  | [] => None
  | (root, _, files) :: l' =>
      if existsb (fun file => bool_decide (spec_strip_extension file = cls)) files
      then Some root
      else spec_search_walk cls l'
  end.

(** ** Sample inputs *)

Module Sample.

(** Two directories with a file named after the core [T]. *)
Definition t_tree : FS.node :=
  FS.Dir [("w", FS.Dir [("a", FS.Dir [("T.v.bak", FS.File "module T")]);
                        ("README", FS.File "");
                        ("b", FS.Dir [("T.py", FS.File "class T")])])].

Definition t_world : @world unit unit := World t_tree ["w"] [] [].

Definition t_core : obj := Obj "T" (<["name" := VStr "T"]> ∅).

(** A tree where only a backup file starts with the name of [T]: there
    is no [T.py], and no file that is [T] once its extension is taken
    off. *)
Definition backup_world : @world unit unit :=
  World (FS.Dir [("w", FS.Dir [("a", FS.Dir [("T.v.bak", FS.File "module T")]);
                               ("README", FS.File "")])])
        ["w"] [] [].

(** A tree without any file named after [T]. *)
Definition no_t_world : @world unit unit :=
  World (FS.Dir [("w", FS.Dir [("a", FS.Dir [("U.py", FS.File "")]);
                               ("Tx.py", FS.File "")])])
        ["w"] [] [].

(** A build tree after the phases of a top core [Foo] have run: [a.v] and
    [d/x.v] are in [hardware/src] and were copied to the other purpose
    directories as well. *)
Definition build_tree : FS.node :=
  FS.Dir
    [("w", FS.Dir
       [("proj", FS.Dir [("Foo.py", FS.File "class Foo")]);
        ("Foo_1.0", FS.Dir
           [("build", FS.Dir
              [("hardware", FS.Dir
                 [("src", FS.Dir [("a.v", FS.File "1");
                                  ("d", FS.Dir [("x.v", FS.File "2")]);
                                  ("only.v", FS.File "3")]);
                  ("simulation", FS.Dir
                     [("src", FS.Dir [("a.v", FS.File "old");
                                      ("d", FS.Dir [("x.v", FS.File "2");
                                                    ("y.v", FS.File "4")]);
                                      ("tb.v", FS.File "5")])]);
                  ("fpga", FS.Dir
                     [("src", FS.Dir [("d", FS.Dir [("x.v", FS.File "2")])])])]);
               ("Makefile", FS.File "all:")])])])].

Definition build_world : @world unit unit :=
  World build_tree ["w"; "proj"] [] [].

(** Generators that succeed and change nothing; the constructor of the
    super class names the core after its class. *)
Definition idle (self : obj) (n : FS.node) : obj * FS.node * (exn + unit) :=
  (self, n, inr tt).

Definition ext : @externals unit unit :=
  Externals
    (fun self n =>
       (setattr "ignore_snippets" (VList [])
          (set_default_attribute "name" (VStr (class_name self)) self), n, inr tt))
    "/w/lib" idle idle idle idle idle idle
    (fun self n => (self, n, inr (tt, tt)))
    (fun _ _ _ n => (n, inr tt))
    (fun self _ _ n => (self, n, inr tt)).

(** The tree before [Foo] is built. *)
Definition start_world : @world unit unit :=
  World (FS.Dir [("w", FS.Dir [("lib", FS.Dir [("build.mk", FS.File "all:")]);
                               ("proj", FS.Dir [("Foo.py", FS.File "class Foo");
                                                ("Bar.py", FS.File "class Bar")])])])
        ["w"; "proj"] [] [].

(** The top core [Foo] built in [start_world]; then the sub-core [Bar],
    constructed once with the build directory of [Foo] as its [topdir]
    and once without a [topdir], which is then ["."]. *)
Definition run_foo : @world unit unit * (exn + obj) :=
  __init__ "" "" (fun _ => "") ext (Obj "Foo" ∅) true "hardware" "." start_world.

Definition built (r : @world unit unit * (exn + obj)) : obj :=
  match snd r with
  | inr self => self
  | inl _ => Obj "" ∅
  end.

Definition run_bar : @world unit unit * (exn + obj) :=
  __init__ "" "" (fun _ => "") ext (Obj "Bar" ∅) false "hardware" "../Foo_1.0/build"
           (fst run_foo).


Definition foo : obj :=
  Obj "Foo" (<["is_top_module" := VBool true]>
             (<["name" := VStr "Foo"]>
             (<["version" := VStr "1.0"]>
              (<["build_dir" := VStr "../Foo_1.0/build"]> ∅)))).

End Sample.

(** ** The rest of the script

    [clean_build_dir] and [find_dict_in_list], with the library calls
    they make. *)

Global Instance value_eq_dec : EqDecision value.
Proof. solve_decision. Defined.

Module Shutil.

(** [shutil.rmtree(p, ignore_errors=True)]: a directory goes with all it
    holds; a path that is missing or is a file is an error, which is
    ignored, and so is the refusal to remove the root itself once it has
    been emptied. *)
Fixpoint rmtree (p : Path.t) (n : FS.node) : FS.node :=
  match p with
  | [] => match n with FS.Dir _ => FS.Dir [] | FS.File _ => n end
  | c :: p' =>
      match n with
      | FS.File _ => n
      | FS.Dir es =>
          match FS.lookup_entry c es with
          | None => n
          | Some x =>
              match p' with
              | [] =>
                  match x with
                  | FS.Dir _ => FS.Dir (FS.del_entry c es)
                  | FS.File _ => n
                  end
              | _ :: _ => FS.Dir (FS.set_entry c (rmtree p' x) es)
              end
          end
      end
  end.

End Shutil.

Module Dicts.

(** What [find_dict_in_list] can raise: [i["name"]] on a dictionary
    without that key, and the exception of the function itself. *)
Inductive error :=
  | KeyError (key : string)
  | Exception (msg : string).

End Dicts.

Section IobCoreRest.

Context {csr_gen_t reg_table_t : Type}.

(** [iob_colors.FAIL], [iob_colors.ENDC], the text of a list in an
    f-string, and what a shell command does to the tree ([os.system]
    returns the exit status, which the script does not look at). *)
Variables (FAIL ENDC : string) (repr_list : list string -> string).
Variable run_command : string -> FS.node -> FS.node.

(** [os.path.exists(p)] *)
Definition os_path_exists (p : string) : @M csr_gen_t reg_table_t bool :=
  fun w =>
    (w, inr (if bool_decide (p = "") then false
             else bool_decide (is_Some (FS.get (Path.abspath (cwd w) p) (fs w))))).

(** [os.system(command)] *)
Definition os_system (command : string) : @M csr_gen_t reg_table_t unit :=
  fun w => (set_fs (run_command command (fs w)) w, inr tt).

(** [shutil.rmtree(p, ignore_errors=True)] *)
Definition shutil_rmtree (p : string) : @M csr_gen_t reg_table_t unit :=
  fun w =>
    if bool_decide (p = "") then (w, inr tt)
    else (set_fs (Shutil.rmtree (Path.abspath (cwd w) p) (fs w)) w, inr tt).

Notation "x <- m ;; k" := (bind m (fun x => k))
  (at level 100, m at next level, right associativity).
Notation "m ;;; k" := (bind m (fun _ => k))
  (at level 100, right associativity).

Definition clean_build_dir (self : obj) : @M csr_gen_t reg_table_t obj :=
  name <- getattr self "name" ;;
  version <- getattr self "version" ;;
  let self :=
    setattr "build_dir"
      (VStr ("../" +:+ format repr_list name +:+ "_" +:+ format repr_list version)) self in
  build_dir <- getattr self "build_dir" ;;
  print (ENDC +:+ "Cleaning build directory: " +:+ format repr_list build_dir +:+ ENDC) ;;;
  build_dir <- getattr_str self "build_dir" ;;
  found <- os_path_exists build_dir ;;
  (if found then os_system ("make -C " +:+ build_dir +:+ " clean") else ret tt) ;;;
  shutil_rmtree build_dir ;;;
  ret self.

(** [find_dict_in_list(list_obj, name)] *)
Fixpoint find_dict_in_list (list_obj : list (gmap string value)) (name : value)
  : Dicts.error + gmap string value :=
  match list_obj with
  | [] =>
      inl (Dicts.Exception
             (FAIL +:+ "Could not find element with name: " +:+ format repr_list name +:+ ENDC))
  | i :: list_obj' =>
      match i !! "name" with
      | None => inl (Dicts.KeyError "name")
      | Some v => if bool_decide (v = name) then inr i else find_dict_in_list list_obj' name
      end
  end.

(** *** Statements about what a run leaves alone *)

(** A generator that writes nothing to the tree. *)
Definition leaves_tree {A} (f : obj -> FS.node -> obj * FS.node * (exn + A)) : Prop :=
  forall self n, snd (fst (f self n)) = n.

(** However [m] ends, the tree is as before. *)
Definition tree_kept {A} (m : @M csr_gen_t reg_table_t A) : Prop :=
  forall w w' r, m w = (w', r) -> fs w' = fs w.

End IobCoreRest.

Module MoreSample.

(** [make clean] empties the build directory of [Foo] but leaves the
    directory itself. *)
Definition make_clean (command : string) (n : FS.node) : FS.node :=
  if bool_decide (command = "make -C ../Foo_1.0 clean")
  then Shutil.rmtree ["w"; "Foo_1.0"; "build"] n
  else n.

(** Three register descriptions. *)
Definition regs : list (gmap string value) :=
  [ <["name" := VStr "ctrl"]> (<["rw" := VBool true]> ∅);
    <["name" := VStr "status"]> ∅;
    <["name" := VStr "data"]> (<["rw" := VBool true]> ∅) ].

(** A list whose second element has no name. *)
Definition broken_regs : list (gmap string value) :=
  [ <["name" := VStr "ctrl"]> ∅; <["rw" := VBool true]> ∅; <["name" := VStr "data"]> ∅ ].


(** A tree where [Foo] was built before: an old [Makefile] and a source
    are in place. *)
Definition rebuilt_world : @world unit unit :=
  World (FS.Dir [("w", FS.Dir [("lib", FS.Dir [("build.mk", FS.File "all:")]);
                               ("proj", FS.Dir [("Foo.py", FS.File "class Foo")]);
                               ("Foo_1.0", FS.Dir
                                  [("build", FS.Dir
                                     [("Makefile", FS.File "old");
                                      ("hardware", FS.Dir
                                         [("src", FS.Dir [("a.v", FS.File "1")])])])])])])
        ["w"; "proj"] [] [].

(** A tree where a regular file has the name of the build directory of
    [Foo]. *)
Definition file_world : @world unit unit :=
  World (FS.Dir [("w", FS.Dir [("proj", FS.Dir [("Foo.py", FS.File "class Foo")]);
                               ("Foo_1.0", FS.File "")])])
        ["w"; "proj"] [] [].


End MoreSample.

(** * Properties *)

(** ** The model on small inputs *)

Example split_ex : Str.split "."%char "iob_core.v.bak" = ["iob_core"; "v"; "bak"].
Proof. reflexivity. Qed.

Example abspath_ex :
  Path.abspath ["w"; "lib"] "../Foo_1.0/build/hardware/src"
  = ["w"; "Foo_1.0"; "build"; "hardware"; "src"].
Proof. reflexivity. Qed.

Example relpath_ex :
  Path.relpath ["w"] (Path.join (Path.join "b/src" "d") "f.v") "b/src" = "d/f.v".
Proof. reflexivity. Qed.

Example walk_ex :
  FS.walk "/w" (FS.Dir [("a", FS.Dir [("T.v.bak", FS.File "x")]);
                        ("README", FS.File "r");
                        ("b", FS.Dir [("T.py", FS.File "y")])])
  = [("/w", ["a"; "b"], ["README"]); ("/w/a", [], ["T.v.bak"]); ("/w/b", [], ["T.py"])].
Proof. reflexivity. Qed.

Example makedirs_ex :
  FS.makedirs ["w"; "c"; "d"] Sample.t_tree
  = inr (FS.Dir [("w", FS.Dir [("a", FS.Dir [("T.v.bak", FS.File "module T")]);
                               ("README", FS.File "");
                               ("b", FS.Dir [("T.py", FS.File "class T")]);
                               ("c", FS.Dir [("d", FS.Dir [])])])]).
Proof. reflexivity. Qed.

Example wf_ex : FS.wf Sample.t_tree = true.
Proof. vm_compute. reflexivity. Qed.

(** Direct paths: [..] only in front. *)
Example direct_ex :
  map Path.direct ["../Foo_1.0/build"; "/w/proj"; ""; "nope/.."; "../x/../Foo_1.0/build"; "a/"]
  = [true; true; true; false; false; false].
Proof. vm_compute. reflexivity. Qed.

(** ** Strings and paths *)

Module StrFacts.

Lemma sapp_nil_l (b : string) : "" +:+ b = b.
Proof. reflexivity. Qed.

Lemma sapp_cons x (a b : string) : String x a +:+ b = String x (a +:+ b).
Proof. reflexivity. Qed.


Lemma sapp_assoc (a b c : string) : (a +:+ b) +:+ c = a +:+ (b +:+ c).
Proof.
  induction a as [|x a IH]; [reflexivity |].
  rewrite !sapp_cons. by f_equal.
Qed.

Lemma split_not_nil sep s : Str.split sep s <> [].
Proof.
  destruct s as [|c s]; simpl; [discriminate |].
  destruct (Ascii.eqb c sep); [discriminate |].
  destruct (Str.split sep s); discriminate.
Qed.

Lemma split_app sep a b :
  Str.split sep (a +:+ String sep b) = Str.split sep a ++ Str.split sep b.
Proof.
  induction a as [|c a IH]; [rewrite sapp_nil_l | rewrite sapp_cons]; simpl.
  - by rewrite Ascii.eqb_refl.
  - destruct (Ascii.eqb c sep); [by rewrite IH |].
    rewrite IH. pose proof (split_not_nil sep a) as Hne.
    destruct (Str.split sep a); [done | reflexivity].
Qed.

Lemma split_no_sep sep s : Str.mem sep s = false -> Str.split sep s = [s].
Proof.
  induction s as [|c s IH]; simpl; [done |].
  intros [Hc Hs]%orb_false_iff. rewrite Hc, (IH Hs). reflexivity.
Qed.

Lemma split_join sep l :
  l <> [] -> Forall (fun n => Str.mem sep n = false) l ->
  Str.split sep (Str.join sep l) = l.
Proof.
  induction l as [|w l IH]; [done |]. intros _ Hall.
  apply Forall_cons in Hall as [Hw Hl].
  destruct l as [|w2 l].
  - simpl. by apply split_no_sep.
  - change (Str.join sep (w :: w2 :: l)) with (w +:+ String sep (Str.join sep (w2 :: l))).
    rewrite split_app, (split_no_sep _ _ Hw), IH; [reflexivity | done | done].
Qed.

Lemma join_inj sep l1 l2 :
  l1 <> [] -> l2 <> [] ->
  Forall (fun n => Str.mem sep n = false) l1 ->
  Forall (fun n => Str.mem sep n = false) l2 ->
  Str.join sep l1 = Str.join sep l2 -> l1 = l2.
Proof.
  intros H1 H2 F1 F2 Heq.
  rewrite <- (split_join sep l1), <- (split_join sep l2) by done.
  by rewrite Heq.
Qed.

Lemma endswith_inv c s :
  Str.endswith c s = true -> exists s', s = s' +:+ String c "".
Proof.
  induction s as [|x s IH]; simpl; [done |].
  destruct s as [|y s].
  - intros ->%Ascii.eqb_eq. by exists "".
  - intros [s' Hs']%IH. exists (String x s'). rewrite sapp_cons. by rewrite Hs'.
Qed.

Lemma startswith_app c a b :
  a <> "" -> Str.startswith c (a +:+ b) = Str.startswith c a.
Proof. by destruct a. Qed.

Lemma startswith_snoc c a x b b' :
  Str.startswith c (a +:+ String x b) = Str.startswith c (a +:+ String x b').
Proof. by destruct a. Qed.

Lemma startswith_join c l :
  match l with w :: _ => w <> "" /\ Str.mem c w = false | [] => True end ->
  Str.startswith c (Str.join c l) = false.
Proof.
  destruct l as [|w l]; [done |]. intros [Hne Hm].
  assert (Str.startswith c w = false) as Hw.
  { destruct w as [|x w]; [done |]. simpl in *. by apply orb_false_iff in Hm as [-> _]. }
  destruct l; [done |].
  change (Str.join c (w :: s :: l)) with (w +:+ String c (Str.join c (s :: l))).
  by rewrite startswith_app.
Qed.

End StrFacts.

Module PathFacts.

Import StrFacts.

Lemma valid_nameb_spec n : FS.valid_nameb n = true <-> Path.valid_name n.
Proof.
  unfold FS.valid_nameb, Path.valid_name.
  rewrite !andb_true_iff, !negb_true_iff, !bool_decide_eq_false. tauto.
Qed.

Lemma norm_step_valid acc n : Path.valid_name n -> Path.norm_step acc n = acc ++ [n].
Proof.
  intros (H1 & H2 & H3 & _). unfold Path.norm_step.
  by rewrite !bool_decide_eq_false_2.
Qed.

Lemma fold_norm_valid rel acc :
  Forall Path.valid_name rel -> fold_left Path.norm_step rel acc = acc ++ rel.
Proof.
  revert acc. induction rel as [|n rel IH]; intros acc Hall; simpl.
  - by rewrite app_nil_r.
  - apply Forall_cons in Hall as [Hn Hrel].
    rewrite norm_step_valid, IH by done. by rewrite <- app_assoc.
Qed.

Lemma valid_no_sep rel :
  Forall Path.valid_name rel -> Forall (fun n => Str.mem Path.sep n = false) rel.
Proof. intros H. eapply Forall_impl; [exact H |]. by intros n (_ & _ & _ & Hn). Qed.

(** Joining a relative path of valid names below [a] leads to the names
    below the directory of [a]. *)
Lemma abspath_join cwd a rel :
  rel <> [] -> Forall Path.valid_name rel ->
  Path.abspath cwd (Path.join a (Str.join Path.sep rel)) = Path.abspath cwd a ++ rel.
Proof.
  intros Hne Hall.
  assert (Str.startswith Path.sep (Str.join Path.sep rel) = false) as Hs.
  { apply startswith_join. destruct rel as [|w rel]; [done |].
    apply Forall_cons in Hall as [(H1 & _ & _ & H4) _]. done. }
  assert (Str.split Path.sep (Str.join Path.sep rel) = rel) as Hsp.
  { apply split_join; [done | by apply valid_no_sep]. }
  unfold Path.join. rewrite Hs.
  destruct (bool_decide (a = "")) eqn:Ha; simpl.
  - apply bool_decide_eq_true in Ha as ->. rewrite sapp_nil_l.
    unfold Path.abspath. rewrite Hs, Hsp.
    by apply fold_norm_valid.
  - apply bool_decide_eq_false in Ha.
    destruct (Str.endswith Path.sep a) eqn:He.
    + apply endswith_inv in He as [a' ->].
      unfold Path.abspath.
      rewrite sapp_assoc, sapp_cons, sapp_nil_l.
      rewrite !split_app, Hsp. simpl.
      rewrite (startswith_snoc _ a' _ (Str.join Path.sep rel) "").
      rewrite !fold_left_app. simpl.
      rewrite fold_norm_valid by done. f_equal.
    + unfold Path.abspath. rewrite split_app, Hsp, startswith_app by done.
      rewrite fold_left_app. by apply fold_norm_valid.
Qed.

Lemma abspath_join1 cwd a n :
  Path.valid_name n -> Path.abspath cwd (Path.join a n) = Path.abspath cwd a ++ [n].
Proof.
  intros Hn. apply (abspath_join cwd a [n]); [done | by constructor].
Qed.


Lemma common_prefix_app l r : Path.common_prefix l (l ++ r) = l.
Proof.
  induction l as [|x l IH]; simpl; [by destruct r |].
  by rewrite bool_decide_eq_true_2, IH.
Qed.

Lemma relpath_below cwd path start rel :
  rel <> [] ->
  Path.abspath cwd path = Path.abspath cwd start ++ rel ->
  Path.relpath cwd path start = Str.join Path.sep rel.
Proof.
  intros Hne Heq. unfold Path.relpath. rewrite Heq, common_prefix_app.
  rewrite Nat.sub_diag, drop_app_length. simpl. by destruct rel.
Qed.

End PathFacts.

(** ** The directory tree *)

Module FSFacts.

Import StrFacts PathFacts.

Lemma node_ind' (P : FS.node -> Prop) :
  (forall d, P (FS.File d)) ->
  (forall es, Forall (fun e => P (snd e)) es -> P (FS.Dir es)) ->
  forall n, P n.
Proof.
  intros HFile HDir. fix IH 1. intros [d | es]; [apply HFile |]. apply HDir.
  induction es as [|[k x] es IHes]; constructor; [apply IH | apply IHes].
Qed.

Lemma wf_Dir es :
  FS.wf (FS.Dir es) = true <->
  NoDup (map fst es) /\ Forall Path.valid_name (map fst es)
  /\ Forall (fun e => FS.wf (snd e) = true) es.
Proof.
  simpl. rewrite !andb_true_iff, bool_decide_eq_true.
  assert (forallb FS.valid_nameb (map fst es) = true <-> Forall Path.valid_name (map fst es)) as ->.
  { rewrite forallb_forall, Forall_forall.
    setoid_rewrite <- list_elem_of_In. by setoid_rewrite valid_nameb_spec. }
  assert ((fix all (l : list (string * FS.node)) : bool :=
             match l with [] => true | (_, x) :: l' => FS.wf x && all l' end) es = true
          <-> Forall (fun e => FS.wf (snd e) = true) es) as ->; [| tauto].
  induction es as [|[k x] es IH]; [by split |].
  rewrite andb_true_iff, IH, Forall_cons. reflexivity.
Qed.

Lemma lookup_entry_elem c es x : FS.lookup_entry c es = Some x -> (c, x) ∈ es.
Proof.
  induction es as [|[k y] es IH]; simpl; [done |].
  case_bool_decide as Hk.
  - intros [= ->]. subst. left.
  - intros H. right. by apply IH.
Qed.

Lemma lookup_entry_None c es : FS.lookup_entry c es = None <-> c ∉ map fst es.
Proof.
  induction es as [|[k y] es IH]; simpl.
  - split; [intros _; apply not_elem_of_nil | done].
  - rewrite not_elem_of_cons. case_bool_decide as Hk.
    + split; [done | by intros [? _]].
    + rewrite IH. split; [by intros ? | by intros [_ ?]].
Qed.

Lemma lookup_entry_NoDup c es x :
  NoDup (map fst es) -> (c, x) ∈ es -> FS.lookup_entry c es = Some x.
Proof.
  induction es as [|[k y] es IH]; simpl; [intros _ H; by apply elem_of_nil in H |].
  intros [Hk Hnd]%NoDup_cons [Heq | Hin]%elem_of_cons.
  - injection Heq as -> ->. by rewrite bool_decide_eq_true_2.
  - case_bool_decide as Hkc; [| by apply IH].
    subst. exfalso. apply Hk. apply list_elem_of_fmap. by exists (c, x).
Qed.

Lemma lookup_set_entry c k x es :
  FS.lookup_entry c (FS.set_entry k x es)
  = if decide (k = c) then Some x else FS.lookup_entry c es.
Proof.
  induction es as [|[k' y] es IH]; simpl.
  - case_bool_decide; case_decide; congruence.
  - case_bool_decide as Hk; simpl.
    + subst k'. case_bool_decide; case_decide; congruence.
    + rewrite IH. case_bool_decide; case_decide; congruence.
Qed.

Lemma lookup_del_entry c k es :
  NoDup (map fst es) ->
  FS.lookup_entry c (FS.del_entry k es)
  = if decide (k = c) then None else FS.lookup_entry c es.
Proof.
  induction es as [|[k' y] es IH]; simpl; intros Hnd.
  - by case_decide.
  - apply NoDup_cons in Hnd as [Hk' Hnd].
    case_bool_decide as Hk; simpl.
    + subst k'. case_decide as Hc.
      * subst c. by apply lookup_entry_None.
      * by rewrite bool_decide_eq_false_2.
    + rewrite IH by done. case_bool_decide; case_decide; congruence.
Qed.

Lemma set_entry_id k x es : FS.lookup_entry k es = Some x -> FS.set_entry k x es = es.
Proof.
  induction es as [|[k' y] es IH]; simpl; [done |].
  case_bool_decide; [by intros [= ->] | intros Hl; by rewrite IH].
Qed.

Lemma fst_set_entry_Some k x y es :
  FS.lookup_entry k es = Some y -> map fst (FS.set_entry k x es) = map fst es.
Proof.
  induction es as [|[k' z] es IH]; simpl; [done |].
  case_bool_decide; simpl; [done | intros Hl; by rewrite IH].
Qed.


Lemma Forall_set_entry (Q : string * FS.node -> Prop) k x es :
  Forall Q es -> Q (k, x) -> (forall y, Q (k, y) -> Q (k, x)) ->
  Forall Q (FS.set_entry k x es).
Proof.
  intros Hall Hx _. induction Hall as [|[k' z] es Hz Hes IH]; simpl.
  - by constructor.
  - case_bool_decide; subst; constructor; done.
Qed.

Lemma del_entry_sub k es e : e ∈ FS.del_entry k es -> e ∈ es.
Proof.
  induction es as [|[k' z] es IH]; simpl; [done |].
  case_bool_decide; [by right |].
  intros [-> | Hin]%elem_of_cons; [left | right; by apply IH].
Qed.

Lemma Forall_del_entry (Q : string * FS.node -> Prop) k es :
  Forall Q es -> Forall Q (FS.del_entry k es).
Proof.
  induction 1 as [|[k' z] es Hz Hes IH]; simpl; [constructor |].
  case_bool_decide; [done | by constructor].
Qed.

Lemma NoDup_del_entry k es :
  NoDup (map fst es) -> NoDup (map fst (FS.del_entry k es)).
Proof.
  induction es as [|[k' z] es IH]; simpl; [done |].
  intros [Hk Hnd]%NoDup_cons. case_bool_decide; [done |].
  simpl. apply NoDup_cons. split; [| by apply IH].
  intros [[k2 z2] [Heq Hin]]%list_elem_of_fmap. simpl in Heq. subst k2.
  apply Hk. apply list_elem_of_fmap. exists (k', z2). split; [done |].
  by eapply del_entry_sub.
Qed.

Lemma wf_set_entry k x y es :
  FS.wf (FS.Dir es) = true -> FS.lookup_entry k es = Some y -> FS.wf x = true ->
  FS.wf (FS.Dir (FS.set_entry k x es)) = true.
Proof.
  rewrite !wf_Dir. intros (Hnd & Hval & Hall) Hk Hx.
  rewrite (fst_set_entry_Some _ _ _ _ Hk). split_and!; [done | done |].
  apply Forall_set_entry; done.
Qed.


Lemma wf_del_entry k es :
  FS.wf (FS.Dir es) = true -> FS.wf (FS.Dir (FS.del_entry k es)) = true.
Proof.
  rewrite !wf_Dir. intros (Hnd & Hval & Hall). split_and!.
  - by apply NoDup_del_entry.
  - clear Hnd Hall. induction es as [|[k' z] es IH]; simpl in *; [done |].
    apply Forall_cons in Hval as [Hk' Hval].
    case_bool_decide; [done | constructor; [done | by apply IH]].
  - by apply Forall_del_entry.
Qed.

Lemma wf_entry c es x :
  FS.wf (FS.Dir es) = true -> FS.lookup_entry c es = Some x ->
  FS.wf x = true /\ Path.valid_name c.
Proof.
  rewrite wf_Dir. intros (_ & Hval & Hall).
  induction es as [|[k y] es IH]; simpl in *; [done |].
  apply Forall_cons in Hval as [Hk Hval]. apply Forall_cons in Hall as [Hy Hall].
  case_bool_decide; [intros [= <-]; by subst | by apply IH].
Qed.

Lemma get_cons c p es :
  FS.get (c :: p) (FS.Dir es)
  = match FS.lookup_entry c es with Some x => FS.get p x | None => None end.
Proof. reflexivity. Qed.

Lemma get_app p q n :
  FS.get (p ++ q) n = match FS.get p n with Some x => FS.get q x | None => None end.
Proof.
  revert n. induction p as [|c p IH]; intros n; [done |].
  destruct n as [d | es]; [done |]. simpl.
  destruct (FS.lookup_entry c es); [apply IH | done].
Qed.

Lemma get_File_nil p d x : FS.get p (FS.File d) = Some x -> p = [].
Proof. by destruct p. Qed.

Lemma wf_get p n x :
  FS.wf n = true -> FS.get p n = Some x -> FS.wf x = true /\ Forall Path.valid_name p.
Proof.
  revert n. induction p as [|c p IH]; intros n Hwf; simpl.
  - intros [= ->]. by split.
  - destruct n as [d | es]; [done |].
    destruct (FS.lookup_entry c es) as [y|] eqn:Hc; [| done].
    destruct (wf_entry _ _ _ Hwf Hc) as [Hy Hv].
    intros [Hx Hp]%IH; [| done]. split; [done | by constructor].
Qed.

End FSFacts.

(** ** [os.walk] and the relative file sets *)

Module WalkFacts.

Import StrFacts PathFacts FSFacts.

Lemma walk_Dir top es :
  FS.walk top (FS.Dir es)
  = (top, FS.dirnames es, FS.filenames es)
    :: flat_map (fun e => FS.walk (Path.join top (fst e)) (snd e)) es.
Proof.
  simpl. f_equal. induction es as [|[k x] es IH]; [done |].
  simpl. by rewrite IH.
Qed.

Lemma elem_of_filenames f es :
  f ∈ FS.filenames es <-> exists d, (f, FS.File d) ∈ es.
Proof.
  unfold FS.filenames. rewrite list_elem_of_In, in_map_iff. split.
  - intros ([k x] & <- & [Hin Hx]%filter_In). simpl in *.
    destruct x as [d|]; [| done]. exists d. by apply list_elem_of_In.
  - intros [d Hin]. exists (f, FS.File d). split; [done |].
    apply filter_In. split; [by apply list_elem_of_In | done].
Qed.

Lemma elem_of_dirnames f es :
  f ∈ FS.dirnames es <-> exists es', (f, FS.Dir es') ∈ es.
Proof.
  unfold FS.dirnames. rewrite list_elem_of_In, in_map_iff. split.
  - intros ([k x] & <- & [Hin Hx]%filter_In). simpl in *.
    destruct x as [|es']; [done |]. exists es'. by apply list_elem_of_In.
  - intros [d Hin]. exists (f, FS.Dir d). split; [done |].
    apply filter_In. split; [by apply list_elem_of_In | done].
Qed.

(** The triples of a walk are the directories of the tree, each under the
    name the joins give it. *)
Lemma elem_of_walk n :
  FS.wf n = true ->
  forall top root ds fl,
    (root, ds, fl) ∈ FS.walk top n <->
    exists r es, FS.get r n = Some (FS.Dir es)
                 /\ root = fold_left Path.join r top
                 /\ ds = FS.dirnames es /\ fl = FS.filenames es.
Proof.
  induction n as [d | es IH] using node_ind'; intros Hwf top root ds fl.
  - simpl. split; [by intros ?%elem_of_nil |].
    intros (r & es & Hget & _). by apply get_File_nil in Hget as Hr; subst.
  - rewrite walk_Dir, elem_of_cons.
    pose proof Hwf as (Hnd & Hval & Hall)%wf_Dir.
    split.
    + intros [[= -> -> ->] | Hin].
      * by exists [], es.
      * apply list_elem_of_In, in_flat_map in Hin as ([k x] & Hkx & Hin).
        simpl in Hin. apply list_elem_of_In in Hin.
        assert (FS.wf x = true) as Hx.
        { apply (proj1 (List.Forall_forall _ _) Hall (k, x) Hkx). }
        pose proof (proj1 (List.Forall_forall _ _) IH (k, x) Hkx) as IHx. simpl in IHx.
        apply (IHx Hx) in Hin as (r & es' & Hget & -> & -> & ->).
        exists (k :: r), es'. rewrite get_cons.
        rewrite (lookup_entry_NoDup k es x Hnd) by (by apply list_elem_of_In).
        done.
    + intros (r & es' & Hget & -> & -> & ->).
      destruct r as [|k r].
      * left. simpl in Hget. by injection Hget as ->.
      * right. rewrite get_cons in Hget.
        destruct (FS.lookup_entry k es) as [x|] eqn:Hk; [| done].
        apply lookup_entry_elem, list_elem_of_In in Hk.
        apply list_elem_of_In, in_flat_map. exists (k, x). split; [done |].
        simpl. apply list_elem_of_In.
        assert (FS.wf x = true) as Hx.
        { apply (proj1 (List.Forall_forall _ _) Hall (k, x) Hk). }
        pose proof (proj1 (List.Forall_forall _ _) IH (k, x) Hk) as IHx. simpl in IHx.
        apply (IHx Hx). by exists r, es'.
Qed.

Lemma abspath_fold_join cwd r top :
  Forall Path.valid_name r ->
  Path.abspath cwd (fold_left Path.join r top) = Path.abspath cwd top ++ r.
Proof.
  revert top. induction r as [|k r IH]; intros top Hall; simpl.
  - by rewrite app_nil_r.
  - apply Forall_cons in Hall as [Hk Hr].
    rewrite IH, abspath_join1 by done. by rewrite <- app_assoc.
Qed.

Section World.

Context {csr_gen_t reg_table_t : Type}.
Implicit Types w : @world csr_gen_t reg_table_t.

(** A relative path is in the set of [path] exactly when it is the text
    of the names leading from [path] to a file. *)
Lemma elem_of_relative_files w path s :
  FS.wf (fs w) = true ->
  s ∈ relative_files w path <->
  path <> "" /\ exists rel d,
      rel <> [] /\ s = Str.join Path.sep rel
      /\ FS.get (Path.abspath (cwd w) path ++ rel) (fs w) = Some (FS.File d).
Proof.
  intros Hwf. unfold relative_files, os_walk.
  rewrite elem_of_list_to_set, list_elem_of_In, in_flat_map.
  case_bool_decide as Hp.
  { split; [by intros (? & [] & _) | by intros [? _]]. }
  split.
  - intros ([[root ds] fl] & Hin & Hs). split; [done |].
    destruct (FS.get (Path.abspath (cwd w) path) (fs w)) as [n|] eqn:Hn; [| done].
    destruct (wf_get _ _ _ Hwf Hn) as [Hwfn _].
    apply list_elem_of_In, (elem_of_walk n Hwfn) in Hin as (r & es & Hget & -> & -> & ->).
    apply in_map_iff in Hs as (f & <- & Hf).
    apply list_elem_of_In, elem_of_filenames in Hf as [d Hf].
    destruct (wf_get _ _ _ Hwfn Hget) as [Hwfes Hr].
    pose proof Hwfes as (Hnd & _)%wf_Dir.
    apply (lookup_entry_NoDup _ _ _ Hnd) in Hf.
    destruct (wf_entry _ _ _ Hwfes Hf) as [_ Hvf].
    exists (r ++ [f]), d. split_and!.
    + by destruct r.
    + apply relpath_below; [by destruct r |].
      rewrite abspath_join1, abspath_fold_join by done. by rewrite <- app_assoc.
    + rewrite get_app, Hn, get_app, Hget. simpl. by rewrite Hf.
  - intros (_ & rel & d & Hne & -> & Hget).
    destruct (exists_last Hne) as (r & f & ->).
    rewrite get_app in Hget.
    destruct (FS.get (Path.abspath (cwd w) path) (fs w)) as [n|] eqn:Hn; [| done].
    rewrite get_app in Hget.
    destruct (FS.get r n) as [x|] eqn:Hx; [| done].
    destruct x as [|es]; [done |]. rewrite get_cons in Hget.
    destruct (FS.lookup_entry f es) as [y|] eqn:Hf; [| done].
    simpl in Hget. injection Hget as ->.
    destruct (wf_get _ _ _ Hwf Hn) as [Hwfn _].
    destruct (wf_get _ _ _ Hwfn Hx) as [Hwfes Hr].
    destruct (wf_entry _ _ _ Hwfes Hf) as [_ Hvf].
    exists (fold_left Path.join r path, FS.dirnames es, FS.filenames es). split.
    + apply list_elem_of_In, (elem_of_walk n Hwfn). by exists r, es.
    + apply in_map_iff. exists f. split.
      * apply relpath_below; [by destruct r |].
        rewrite abspath_join1, abspath_fold_join by done. by rewrite <- app_assoc.
      * apply list_elem_of_In, elem_of_filenames. exists d. by apply lookup_entry_elem.
Qed.

End World.

End WalkFacts.

(** ** Removing files *)

Module RemoveFacts.

Import StrFacts PathFacts FSFacts WalkFacts.





Section World.

Context {csr_gen_t reg_table_t : Type}.
Implicit Types w : @world csr_gen_t reg_table_t.


End World.

End RemoveFacts.

(** ** Deduplication *)

Module DedupFacts.

Import StrFacts PathFacts FSFacts WalkFacts RemoveFacts.

Section World.

Context {csr_gen_t reg_table_t : Type}.
Implicit Types w : @world csr_gen_t reg_table_t.




End World.

End DedupFacts.

Module DedupRun.

Import StrFacts PathFacts FSFacts WalkFacts RemoveFacts DedupFacts.








Section World.

Context {csr_gen_t reg_table_t : Type}.
Implicit Types w : @world csr_gen_t reg_table_t.



End World.

End DedupRun.

(** ** The removal, file by file *)

Module DedupMore.

Import StrFacts PathFacts FSFacts WalkFacts RemoveFacts DedupFacts DedupRun.

Section World.

Context {csr_gen_t reg_table_t : Type}.
Implicit Types w : @world csr_gen_t reg_table_t.

(** The common relative paths are those leading to a file from both
    directories. *)
Lemma elem_of_find_common_deep w path1 path2 s :
  FS.wf (fs w) = true ->
  s ∈ find_common_deep w path1 path2 <->
  path1 <> "" /\ path2 <> ""
  /\ exists rel d1 d2,
       rel <> [] /\ s = Str.join Path.sep rel
       /\ FS.get (Path.abspath (cwd w) path1 ++ rel) (fs w) = Some (FS.File d1)
       /\ FS.get (Path.abspath (cwd w) path2 ++ rel) (fs w) = Some (FS.File d2).
Proof.
  intros Hwf. unfold find_common_deep.
  rewrite elem_of_intersection, !elem_of_relative_files by done. split.
  - intros [(H1 & r1 & d1 & Hn1 & -> & Hg1) (H2 & r2 & d2 & Hn2 & Heq & Hg2)].
    split_and!; [done | done |].
    destruct (wf_get _ _ _ Hwf Hg1) as [_ [_ Hv1]%Forall_app].
    destruct (wf_get _ _ _ Hwf Hg2) as [_ [_ Hv2]%Forall_app].
    apply join_inj in Heq; [| done | done | by apply valid_no_sep | by apply valid_no_sep].
    subst r2. by exists r1, d1, d2.
  - intros (H1 & H2 & rel & d1 & d2 & Hne & -> & Hg1 & Hg2).
    split; (split; [done |]); [by exists rel, d1 | by exists rel, d2].
Qed.





End World.

End DedupMore.

(** ** The search of [find_module_setup_dir] *)

Module SearchFacts.

Import StrFacts PathFacts FSFacts WalkFacts.

Lemma first_matching_file_true cls files :
  first_matching_file cls files = true <->
  exists file, file ∈ files /\ split_dot_0 file = cls.
Proof.
  induction files as [|f files IH]; simpl.
  - split; [done | by intros (? & ?%elem_of_nil & _)].
  - case_bool_decide as Hf.
    + split; [intros _; exists f; split; [left | done] | done].
    + rewrite IH. split.
      * intros (file & Hin & Hm). exists file. split; [by right | done].
      * intros (file & [-> | Hin]%elem_of_cons & Hm); [done | by exists file].
Qed.

Lemma first_matching_file_false cls files :
  first_matching_file cls files = false <->
  forall file, file ∈ files -> split_dot_0 file <> cls.
Proof.
  rewrite <- not_true_iff_false, first_matching_file_true. split.
  - intros Hno file Hin Hm. apply Hno. by exists file.
  - intros Hno (file & Hin & Hm). by apply (Hno file).
Qed.

Lemma search_walk_None cls l :
  search_walk cls l = None <->
  forall root dirs files, (root, dirs, files) ∈ l -> first_matching_file cls files = false.
Proof.
  induction l as [|[[r ds] fl] l IH]; simpl.
  - split; [by intros _ ? ? ? ?%elem_of_nil | done].
  - destruct (first_matching_file cls fl) eqn:Hfl.
    + split; [done |]. intros H. specialize (H r ds fl ltac:(left)). congruence.
    + rewrite IH. split.
      * intros H root dirs files [[= -> -> ->] | Hin]%elem_of_cons; [done | by eapply H].
      * intros H root dirs files Hin. eapply H. by right.
Qed.

Lemma search_walk_Some cls l root :
  search_walk cls l = Some root ->
  exists before dirs files after,
    l = before ++ (root, dirs, files) :: after
    /\ first_matching_file cls files = true
    /\ forall r ds fl, (r, ds, fl) ∈ before -> first_matching_file cls fl = false.
Proof.
  induction l as [|[[r ds] fl] l IH]; simpl; [done |].
  destruct (first_matching_file cls fl) eqn:Hfl.
  - intros [= ->]. exists [], ds, fl, l. split_and!; [done | done |].
    by intros ? ? ? ?%elem_of_nil.
  - intros (before & dirs & files & after & -> & Hm & Hb)%IH.
    exists ((r, ds, fl) :: before), dirs, files, after. split_and!; [done | done |].
    intros r' ds' fl' [[= -> -> ->] | Hin]%elem_of_cons; [done | by eapply Hb].
Qed.

Section World.

Context {csr_gen_t reg_table_t : Type}.
Implicit Types w : @world csr_gen_t reg_table_t.

(** Every file name a walk lists is the name of a file of the tree. *)
Lemma os_walk_file w top root dirs files file :
  FS.wf (fs w) = true ->
  (root, dirs, files) ∈ os_walk w top -> file ∈ files ->
  exists rel d,
    FS.get (Path.abspath (cwd w) top ++ rel ++ [file]) (fs w) = Some (FS.File d).
Proof.
  intros Hwf Hin Hfile. unfold os_walk in Hin.
  case_bool_decide; [by apply elem_of_nil in Hin |].
  destruct (FS.get (Path.abspath (cwd w) top) (fs w)) as [n|] eqn:Hn;
    [| by apply elem_of_nil in Hin].
  destruct (wf_get _ _ _ Hwf Hn) as [Hwfn _].
  apply (elem_of_walk n Hwfn) in Hin as (r & es & Hget & -> & -> & ->).
  apply elem_of_filenames in Hfile as [d Hd].
  destruct (wf_get _ _ _ Hwfn Hget) as [(Hnd & _)%wf_Dir _].
  apply (lookup_entry_NoDup _ _ _ Hnd) in Hd.
  exists r, d. rewrite get_app, Hn, get_app, Hget. simpl. by rewrite Hd.
Qed.

End World.

End SearchFacts.

(** ** Runs of the constructor *)

Module RunFacts.

Lemma attrs_setattr_eq k v s : attrs (setattr k v s) !! k = Some v.
Proof. unfold setattr. cbn [attrs]. apply lookup_insert_eq. Qed.


Section World.

Context {csr_gen_t reg_table_t : Type}.
Variables (FAIL ENDC : string) (repr_list : list string -> string).
Variable ext : @externals csr_gen_t reg_table_t.

Local Abbreviation M := (@M csr_gen_t reg_table_t).
Local Abbreviation event := (@event csr_gen_t reg_table_t).

Lemma bind_inr {A B} (m : M A) (k : A -> M B) w w' b :
  bind m k w = (w', inr b) ->
  exists w1 a, m w = (w1, inr a) /\ k a w1 = (w', inr b).
Proof.
  unfold bind. destruct (m w) as [w1 [e | a]]; [done |]. intros H. by exists w1, a.
Qed.

Lemma bind_cases {A B} (m : M A) (k : A -> M B) w w' r :
  bind m k w = (w', r) ->
  (exists e, m w = (w', inl e) /\ r = inl e)
  \/ (exists w1 a, m w = (w1, inr a) /\ k a w1 = (w', r)).
Proof.
  unfold bind. destruct (m w) as [w1 [e | a]].
  - intros [= <- <-]. left. by exists e.
  - intros H. right. by exists w1, a.
Qed.


Lemma getattr_inr self k w w' v :
  (getattr self k : M value) w = (w', inr v) -> attrs self !! k = Some v.
Proof. unfold getattr. destruct (attrs self !! k); [by intros [= _ <-] | done]. Qed.

Lemma getattr_str_inr self k w w' s :
  (getattr_str self k : M string) w = (w', inr s) -> attrs self !! k = Some (VStr s).
Proof.
  intros (w1 & v & Hv%getattr_inr & H)%bind_inr.
  destruct v; [by injection H as _ <- | done | done].
Qed.



(** *** Silent statements *)

Lemma silent_ret {A} (a : A) : silent (ret a : M A).
Proof. by intros w w' r [= <- _]. Qed.

Lemma silent_raise {A} e : silent (raise e : M A).
Proof. by intros w w' r [= <- _]. Qed.

Lemma silent_bind {A B} (m : M A) (k : A -> M B) :
  silent m -> (forall a, silent (k a)) -> silent (bind m k).
Proof.
  intros Hm Hk w w' r [(e & H & _) | (w1 & a & H1 & H2)]%bind_cases.
  - by eapply Hm.
  - rewrite (Hk _ _ _ _ H2). by eapply Hm.
Qed.

Lemma silent_getattr self k : silent (getattr self k : M value).
Proof.
  unfold getattr. destruct (attrs self !! k); [apply silent_ret | apply silent_raise].
Qed.

Lemma silent_getattr_str self k : silent (getattr_str self k : M string).
Proof.
  apply silent_bind; [apply silent_getattr |].
  intros [s | b | l]; [apply silent_ret | apply silent_raise | apply silent_raise].
Qed.

Lemma silent_getcwd : silent (getcwd : M string).
Proof. by intros w w' r [= <- _]. Qed.

Lemma silent_print line : silent (print line : M unit).
Proof. by intros w w' r [= <- _]. Qed.

Lemma silent_fs_call f p : silent (fs_call f p : M unit).
Proof.
  intros w w' r. unfold fs_call. case_bool_decide; [by intros [= <- _] |].
  destruct (f _ _); by intros [= <- _].
Qed.

Lemma silent_copyfile src dst : silent (shutil_copyfile src dst : M unit).
Proof.
  intros w w' r. unfold shutil_copyfile.
  destruct (_ || _); [by intros [= <- _] |].
  destruct (FS.copyfile _ _ _); by intros [= <- _].
Qed.

Lemma silent_call {A} (f : obj -> FS.node -> obj * FS.node * (exn + A)) self :
  silent (call f self : M (obj * A)).
Proof.
  intros w w' r. unfold call. destruct (f self (fs w)) as [[s n] [e | a]]; by intros [= <- _].
Qed.

Lemma silent_call_ f self : silent (call_ f self : M obj).
Proof. apply silent_bind; [apply silent_call | intros; apply silent_ret]. Qed.

Lemma silent_for_each {A} (l : list A) (body : A -> M unit) :
  (forall x, silent (body x)) -> silent (for_each l body).
Proof.
  intros Hb. induction l as [|x l IH]; simpl; [apply silent_ret |].
  apply silent_bind; [apply Hb | by intros _].
Qed.

Lemma silent_find_module_setup_dir core search_path :
  silent (find_module_setup_dir FAIL ENDC repr_list core search_path : M string).
Proof.
  intros w w' r. unfold find_module_setup_dir.
  destruct (search_walk _ _); [by intros [= <- _] |].
  apply silent_bind; [apply silent_getattr | intros; apply silent_raise].
Qed.

Lemma silent_create_build_dir self :
  silent (__create_build_dir FAIL ENDC repr_list ext self).
Proof.
  unfold __create_build_dir.
  apply silent_bind; [apply silent_getattr | intros top].
  apply silent_bind.
  { destruct (truthy top); [apply silent_ret |].
    apply silent_bind; [apply silent_getattr | intros; apply silent_raise]. }
  intros _. apply silent_bind; [apply silent_getattr_str | intros build_dir].
  repeat (apply silent_bind; [apply silent_fs_call | intros _]).
  apply silent_copyfile.
Qed.

Lemma silent_remove_duplicate_sources self :
  silent (_remove_duplicate_sources self : M unit).
Proof.
  unfold _remove_duplicate_sources.
  apply silent_bind; [apply silent_getattr_str | intros build_dir].
  apply silent_for_each. intros subfolder.
  case_bool_decide; [apply silent_ret |].
  apply silent_bind; [by intros w w' r [= <- _] | intros common].
  apply silent_for_each. intros src. apply silent_fs_call.
Qed.

Lemma silent_replace_snippet_includes self :
  silent (_replace_snippet_includes ext self).
Proof.
  unfold _replace_snippet_includes.
  repeat (apply silent_bind; [first [apply silent_getattr_str | apply silent_getattr] | intros ?]).
  intros w w' r. destruct (replace_includes _ _ _ _ _) as [n r']. by intros [= <- _].
Qed.

(** *** What a statement may log *)

Lemma emits_silent {A} (S : event -> Prop) (m : M A) : silent m -> emits S m.
Proof.
  intros Hm w w' r H. exists []. rewrite app_nil_r. split; [by eapply Hm | constructor].
Qed.

Lemma emits_log (S : event -> Prop) e : S e -> emits S (log e).
Proof.
  intros He w w' r [= <- _]. exists [e]. split; [done | by repeat constructor].
Qed.

Lemma emits_bind {A B} (S : event -> Prop) (m : M A) (k : A -> M B) :
  emits S m -> (forall a, emits S (k a)) -> emits S (bind m k).
Proof.
  intros Hm Hk w w' r [(e & H & _) | (w1 & a & H1 & H2)]%bind_cases.
  - by eapply Hm.
  - destruct (Hm _ _ _ H1) as (t1 & E1 & F1). destruct (Hk _ _ _ _ H2) as (t2 & E2 & F2).
    exists (t1 ++ t2). split; [by rewrite E2, E1, app_assoc | by apply Forall_app].
Qed.

Lemma emits_call_generate_csr (S : event -> Prop) self :
  (forall r, S (EvGenerateCsr r)) -> emits S (call_generate_csr ext self).
Proof.
  intros HS w w' r. unfold call_generate_csr.
  destruct (call (generate_csr ext) self w) as [w1 res] eqn:Hc.
  intros [= <- _]. simpl. rewrite (silent_call _ _ _ _ _ Hc).
  eexists. split; [done | by repeat constructor].
Qed.

(** *** What a statement has logged when it returns *)

Lemma traced_silent {A} (m : M A) : silent m -> traced m (fun t => t = []).
Proof.
  intros Hm w w' a H. exists []. rewrite app_nil_r. split; [by eapply Hm | done].
Qed.

Lemma traced_log (e : event) : traced (log e) (fun t => t = [e]).
Proof. intros w w' a [= <- _]. by exists [e]. Qed.

Lemma traced_bind {A B} (m : M A) (k : A -> M B) P Q :
  traced m P -> (forall a, traced (k a) Q) ->
  traced (bind m k) (fun t => exists t1 t2, t = t1 ++ t2 /\ P t1 /\ Q t2).
Proof.
  intros Hm Hk w w' b (w1 & a & H1 & H2)%bind_inr.
  destruct (Hm _ _ _ H1) as (t1 & E1 & F1). destruct (Hk _ _ _ _ H2) as (t2 & E2 & F2).
  exists (t1 ++ t2). split; [by rewrite E2, E1, app_assoc | by exists t1, t2].
Qed.

Lemma traced_call_generate_csr self w w' s res :
  call_generate_csr ext self w = (w', inr (s, res)) ->
  trace w' = trace w ++ [EvGenerateCsr (inr res)].
Proof.
  unfold call_generate_csr.
  destruct (call (generate_csr ext) self w) as [w1 r] eqn:Hc.
  intros [= <- ->]. simpl. by rewrite (silent_call _ _ _ _ _ Hc).
Qed.

Lemma traced_weaken {A} (m : M A) (P Q : list event -> Prop) :
  traced m P -> (forall t, P t -> Q t) -> traced m Q.
Proof.
  intros Hm HPQ w w' a H. destruct (Hm _ _ _ H) as (t & E & F).
  exists t. split; [done | by apply HPQ].
Qed.

Lemma traced_bind_csr {A} self (k : obj * (csr_gen_t * reg_table_t) -> M A)
    (Q : csr_gen_t -> reg_table_t -> list event -> Prop) :
  (forall s c t, traced (k (s, (c, t))) (Q c t)) ->
  traced (bind (call_generate_csr ext self) k)
         (fun tr => exists c t t2, tr = EvGenerateCsr (inr (c, t)) :: t2 /\ Q c t t2).
Proof.
  intros Hk w w' a (w1 & [s [c t]] & H1 & H2)%bind_inr.
  apply traced_call_generate_csr in H1.
  destruct (Hk _ _ _ _ _ _ H2) as (t2 & E2 & F2).
  exists (EvGenerateCsr (inr (c, t)) :: t2). split; [| by exists c, t, t2].
  rewrite E2, H1, <- app_assoc. done.
Qed.

(** *** What a statement returns *)

Lemma returns_ret {A} (a : A) (Q : A -> Prop) : Q a -> returns (ret a : M A) Q.
Proof. by intros H w w' a' [= _ <-]. Qed.

Lemma returns_bind {A B} (m : M A) (k : A -> M B) P Q :
  returns m P -> (forall a, P a -> returns (k a) Q) -> returns (bind m k) Q.
Proof.
  intros Hm Hk w w' b (w1 & a & H1 & H2)%bind_inr.
  eapply Hk; [by eapply Hm | done].
Qed.

Lemma returns_any {A} (m : M A) : returns m (fun _ => True).
Proof. by intros w w' a _. Qed.

Lemma returns_call_ (f : obj -> FS.node -> obj * FS.node * (exn + unit)) self
    (I : obj -> Prop) :
  (forall s n s' n' r, f s n = (s', n', r) -> I s -> I s') ->
  I self -> returns (call_ f self : M obj) I.
Proof.
  intros Hf Hself w w' s'. unfold call_, call, bind, ret.
  destruct (f self (fs w)) as [[s n] [e | []]] eqn:Hc; [done |].
  intros [= _ <-]. simpl. by eapply Hf.
Qed.

Lemma returns_call_generate_csr self (I : obj -> Prop) :
  (forall s n s' n' r, generate_csr ext s n = (s', n', r) -> I s -> I s') ->
  I self -> returns (call_generate_csr ext self) (fun r => I (fst r)).
Proof.
  intros Hf Hself w w' [s res]. unfold call_generate_csr, call.
  destruct (generate_csr ext self (fs w)) as [[s1 n] [e | a]] eqn:Hc; [done |].
  intros [= _ <- _]. simpl. by eapply Hf.
Qed.

End World.

End RunFacts.

(** ** What a run does to the tree *)

Module TreeFacts.

Import RunFacts.

Section World.

Context {csr_gen_t reg_table_t : Type}.
Variables (FAIL ENDC : string) (repr_list : list string -> string).
Variable ext : @externals csr_gen_t reg_table_t.

Local Abbreviation M := (@M csr_gen_t reg_table_t).

Lemma tree_kept_ret {A} (a : A) : tree_kept (ret a : M A).
Proof. by intros w w' r [= <- _]. Qed.

Lemma tree_kept_raise {A} e : tree_kept (raise e : M A).
Proof. by intros w w' r [= <- _]. Qed.

Lemma tree_kept_bind {A B} (m : M A) (k : A -> M B) :
  tree_kept m -> (forall a, tree_kept (k a)) -> tree_kept (bind m k).
Proof.
  intros Hm Hk w w' r [(e & H & _) | (w1 & a & H1 & H2)]%bind_cases.
  - by eapply Hm.
  - rewrite (Hk _ _ _ _ H2). by eapply Hm.
Qed.

Lemma tree_kept_log e : tree_kept (log e : M unit).
Proof. by intros w w' r [= <- _]. Qed.

Lemma tree_kept_getattr self k : tree_kept (getattr self k : M value).
Proof.
  unfold getattr. destruct (attrs self !! k); [apply tree_kept_ret | apply tree_kept_raise].
Qed.

Lemma tree_kept_getcwd : tree_kept (getcwd : M string).
Proof. by intros w w' r [= <- _]. Qed.

Lemma tree_kept_call {A} (f : obj -> FS.node -> obj * FS.node * (exn + A)) self :
  leaves_tree f -> tree_kept (call f self : M (obj * A)).
Proof.
  intros Hf w w' r. unfold call. specialize (Hf self (fs w)).
  destruct (f self (fs w)) as [[s n] [e | a]]; simpl in Hf; subst n;
    by intros [= <- _].
Qed.

Lemma tree_kept_call_ f self : leaves_tree f -> tree_kept (call_ f self : M obj).
Proof.
  intros Hf. apply tree_kept_bind; [by apply tree_kept_call | intros; apply tree_kept_ret].
Qed.

Lemma tree_kept_call_generate_csr self :
  leaves_tree (generate_csr ext) -> tree_kept (call_generate_csr ext self).
Proof.
  intros Hf w w' r. unfold call_generate_csr.
  destruct (call (generate_csr ext) self w) as [w1 res] eqn:Hc.
  apply (tree_kept_call _ _ Hf) in Hc. by intros [= <- _].
Qed.

Lemma tree_kept_find_module_setup_dir core search_path :
  tree_kept (find_module_setup_dir FAIL ENDC repr_list core search_path : M string).
Proof.
  intros w w' r. unfold find_module_setup_dir.
  destruct (search_walk _ _); [by intros [= <- _] |].
  apply tree_kept_bind; [apply tree_kept_getattr | intros; apply tree_kept_raise].
Qed.

(** *** The calls of a run that returns *)

(** A generator that returned was handed the tree of the moment and left
    the tree that the run goes on with. *)
Lemma call__run (f : obj -> FS.node -> obj * FS.node * (exn + unit)) self w w' s :
  (call_ f self : M obj) w = (w', inr s) ->
  f self (fs w) = (s, fs w', inr tt) /\ cwd w' = cwd w.
Proof.
  unfold call_, call, bind, ret.
  destruct (f self (fs w)) as [[s1 n1] [e | []]] eqn:Hc; [done |].
  by intros [= <- <-].
Qed.

Lemma call_generate_csr_run self w w' s res :
  call_generate_csr ext self w = (w', inr (s, res)) ->
  generate_csr ext self (fs w) = (s, fs w', inr res) /\ cwd w' = cwd w.
Proof.
  unfold call_generate_csr, call.
  destruct (generate_csr ext self (fs w)) as [[s1 n1] [e | a]] eqn:Hc; [done |].
  by intros [= <- <- <-].
Qed.

Lemma replace_snippet_includes_run self w w' :
  _replace_snippet_includes ext self w = (w', inr tt) ->
  exists setup_dir build_dir ignore_snippets,
    attrs self !! "setup_dir" = Some setup_dir
    /\ attrs self !! "build_dir" = Some build_dir
    /\ attrs self !! "ignore_snippets" = Some ignore_snippets
    /\ replace_includes ext setup_dir build_dir ignore_snippets (fs w) = (fs w', inr tt)
    /\ cwd w' = cwd w.
Proof.
  unfold _replace_snippet_includes.
  intros (w1 & sd & Hsd & H)%bind_inr.
  apply bind_inr in H as (w2 & bd & Hbd & H).
  apply bind_inr in H as (w3 & ig & Hig & H).
  pose proof (tree_kept_getattr _ _ _ _ _ Hsd) as E1.
  pose proof (tree_kept_getattr _ _ _ _ _ Hbd) as E2.
  pose proof (tree_kept_getattr _ _ _ _ _ Hig) as E3.
  assert (w3 = w) as ->.
  { unfold getattr in Hsd, Hbd, Hig.
    destruct (attrs self !! "setup_dir"); [| done].
    destruct (attrs self !! "build_dir"); [| done].
    destruct (attrs self !! "ignore_snippets"); [| done].
    injection Hsd as <- _. injection Hbd as <- _. by injection Hig as <- _. }
  apply getattr_inr in Hsd, Hbd, Hig.
  exists sd, bd, ig. split_and!; try done.
  - destruct (replace_includes ext sd bd ig (fs w)) as [n [e | []]]; [done |].
    by injection H as <-.
  - destruct (replace_includes ext sd bd ig (fs w)) as [n [e | []]]; [done |].
    by injection H as <-.
Qed.

Lemma log_run e (w w' : world) r :
  (log e : M unit) w = (w', r) -> fs w' = fs w /\ cwd w' = cwd w.
Proof. by intros [= <- _]. Qed.

End World.

End TreeFacts.

(** ** Creating directories and writing files *)

Module MakeFacts.

Import StrFacts PathFacts FSFacts.


















End MakeFacts.

(** * The properties of the specification *)

Import StrFacts PathFacts FSFacts WalkFacts RemoveFacts DedupFacts DedupRun.

(** ** Source deduplication *)



(** On the sample tree the pass removes [a.v] and [d/x.v] from the
    simulation sources and [d/x.v] from the FPGA sources, and leaves the
    directories [d] in place. *)
Example remove_duplicate_sources_sample :
  fs (fst (_remove_duplicate_sources Sample.foo Sample.build_world))
  = FS.Dir
    [("w", FS.Dir
       [("proj", FS.Dir [("Foo.py", FS.File "class Foo")]);
        ("Foo_1.0", FS.Dir
           [("build", FS.Dir
              [("hardware", FS.Dir
                 [("src", FS.Dir [("a.v", FS.File "1");
                                  ("d", FS.Dir [("x.v", FS.File "2")]);
                                  ("only.v", FS.File "3")]);
                  ("simulation", FS.Dir
                     [("src", FS.Dir [("d", FS.Dir [("y.v", FS.File "4")]);
                                      ("tb.v", FS.File "5")])]);
                  ("fpga", FS.Dir [("src", FS.Dir [("d", FS.Dir [])])])]);
               ("Makefile", FS.File "all:")])])])].
Proof. vm_compute. reflexivity. Qed.





(** C10.  [find_common_deep] does not depend on the order of its two
    directories. *)
Theorem find_common_deep_comm
    {csr_gen_t reg_table_t : Type} (w : @world csr_gen_t reg_table_t)
    (path1 path2 : string) :
  find_common_deep w path1 path2 = find_common_deep w path2 path1.
Proof. unfold find_common_deep. apply (comm_L (∩)). Qed.

Example find_common_deep_sample :
  elements (find_common_deep Sample.build_world
              "../Foo_1.0/build/hardware/src" "../Foo_1.0/build/hardware/simulation/src")
  = ["a.v"; "d/x.v"].
Proof. vm_compute. reflexivity. Qed.

(** ** Setup-directory resolution *)

Import SearchFacts.

(** The part of C3 that the code keeps.  When no file anywhere below the
    search root passes the test of the code (no file whose name up to its
    first dot is the class name, [file.split(".")[0] ==
    core.__class__.__name__]), [find_module_setup_dir] raises; the message
    of the exception holds the name of the core and the search root; no
    path is returned and nothing is changed.  The exception is a plain
    [Exception]: the script has no class of its own for this failure. *)
Theorem find_module_setup_dir_not_found
    {csr_gen_t reg_table_t : Type} (FAIL ENDC : string)
    (repr_list : list string -> string) (core : obj) (search_path : string)
    (w : @world csr_gen_t reg_table_t) (name : value) :
  FS.wf (fs w) = true ->
  attrs core !! "name" = Some name ->
  (forall rel file d,
      FS.get (Path.abspath (cwd w) search_path ++ rel ++ [file]) (fs w) = Some (FS.File d) ->
      split_dot_0 file <> class_name core) ->
  let msg := setup_not_found FAIL ENDC (format repr_list name) search_path in
  find_module_setup_dir FAIL ENDC repr_list core search_path w = (w, inl (Exception msg))
  /\ Str.contains msg (format repr_list name)
  /\ Str.contains msg search_path.
Proof.
  intros Hwf Hname Hno msg. split_and!.
  - unfold find_module_setup_dir.
    assert (search_walk (class_name core) (os_walk w search_path) = None) as ->.
    { apply search_walk_None. intros root dirs files Hin.
      apply first_matching_file_false. intros file Hfile.
      destruct (os_walk_file w _ _ _ _ _ Hwf Hin Hfile) as (rel & d & Hget).
      by eapply Hno. }
    unfold bind, getattr. by rewrite Hname.
  - exists (FAIL +:+ "Setup dir of "), (" not found in " +:+ search_path +:+ "!" +:+ ENDC).
    unfold msg, setup_not_found. by rewrite !sapp_assoc.
  - exists (FAIL +:+ "Setup dir of " +:+ format repr_list name +:+ " not found in "),
      ("!" +:+ ENDC).
    unfold msg, setup_not_found. by rewrite !sapp_assoc.
Qed.

Lemma find_module_setup_dir_not_found_witness :
  find_module_setup_dir "<FAIL>" "<ENDC>" (fun _ => "") Sample.t_core "/w" Sample.no_t_world
  = (Sample.no_t_world,
     inl (Exception "<FAIL>Setup dir of T not found in /w!<ENDC>")).
Proof.
  refine (proj1 (find_module_setup_dir_not_found "<FAIL>" "<ENDC>" (fun _ => "")
                   Sample.t_core "/w" Sample.no_t_world (VStr "T") _ _ _)).
  - vm_compute. reflexivity.
  - vm_compute. reflexivity.
  - intros rel file d.
    change (Path.abspath (cwd Sample.no_t_world) "/w") with ["w"].
    destruct rel as [|c1 [|c2 [|c3 rel]]]; simpl;
      repeat (case_bool_decide; subst; simpl; try done);
      destruct rel; simpl; done.
Defined.

(** C3.  At this input the code does not do what the spec says.  Below
    [/w] there is no definition file of [T]: no [T.py], which is what the
    comment in [find_module_setup_dir] says the test looks for, and no
    file whose name without its extension is [T], which is what the spec
    says.  The search ought to fail.  But [T.v.bak] passes the test
    [file.split(".")[0] == "T"], and its directory is returned. *)
Lemma find_module_setup_dir_backup_only :
  find_module_setup_dir "<FAIL>" "<ENDC>" (fun _ => "") Sample.t_core "/w"
    Sample.backup_world
  = (Sample.backup_world, inr "/w/a")
  /\ spec_search_walk (class_name Sample.t_core) (os_walk Sample.backup_world "/w") = None
  /\ flat_map (fun '(_, _, files) => files) (os_walk Sample.backup_world "/w")
     = ["README"; "T.v.bak"]
  /\ direct_in Sample.backup_world "/w" = true.
Proof. vm_compute. split_and!; reflexivity. Qed.

(** The search as the code has it.  [find_module_setup_dir] takes the
    triples of [os.walk] in order (a directory before its sub-directories,
    these in the order of the listing) and returns the first directory
    that lists a file whose name up to its first dot is the class name of
    the core: no directory walked before it lists such a file.  It raises
    exactly when no directory of the walk does.  The world is left as it
    was. *)
Theorem find_module_setup_dir_first_match
    {csr_gen_t reg_table_t : Type} (FAIL ENDC : string)
    (repr_list : list string -> string) (core : obj) (search_path : string)
    (w : @world csr_gen_t reg_table_t) :
  match find_module_setup_dir FAIL ENDC repr_list core search_path w with
  | (w', inr root) =>
      w' = w
      /\ exists before dirs files after,
           os_walk w search_path = before ++ (root, dirs, files) :: after
           /\ (exists file, file ∈ files /\ split_dot_0 file = class_name core)
           /\ (forall r ds fl file,
                  (r, ds, fl) ∈ before -> file ∈ fl -> split_dot_0 file <> class_name core)
  | (w', inl e) =>
      w' = w
      /\ forall r ds fl file,
           (r, ds, fl) ∈ os_walk w search_path -> file ∈ fl ->
           split_dot_0 file <> class_name core
  end.
Proof.
  unfold find_module_setup_dir.
  destruct (search_walk (class_name core) (os_walk w search_path)) as [root|] eqn:Hs.
  - simpl. split; [done |].
    apply search_walk_Some in Hs as (before & dirs & files & after & Hw & Hm & Hb).
    exists before, dirs, files, after. split_and!; [done | |].
    + by apply first_matching_file_true.
    + intros r ds fl file Hin Hfile.
      by apply (proj1 (first_matching_file_false _ _) (Hb r ds fl Hin)).
  - assert (forall r ds fl file,
               (r, ds, fl) ∈ os_walk w search_path -> file ∈ fl ->
               split_dot_0 file <> class_name core) as Hno.
    { intros r ds fl file Hin Hfile.
      rewrite search_walk_None in Hs.
      by apply (proj1 (first_matching_file_false _ _) (Hs r ds fl Hin)). }
    unfold bind, getattr, raise, ret.
    destruct (attrs core !! "name"); by split.
Qed.

(** With a definition file in each of two directories the first one in
    the order of the walk is returned. *)
Example find_module_setup_dir_two_definitions :
  find_module_setup_dir "" "" (fun _ => "") Sample.t_core "/w"
    (World (FS.Dir [("w", FS.Dir [("b", FS.Dir [("T.py", FS.File "")]);
                                  ("a", FS.Dir [("T.py", FS.File "")])])])
           ["w"] [] [] : @world unit unit)
  = (World (FS.Dir [("w", FS.Dir [("b", FS.Dir [("T.py", FS.File "")]);
                                  ("a", FS.Dir [("T.py", FS.File "")])])])
           ["w"] [] [],
     inr "/w/b").
Proof. vm_compute. reflexivity. Qed.

(** C5.  At this input the code does not do what the spec says.  The
    comment in [find_module_setup_dir] says the test looks for
    [<core_class_name>.py], the spec for a file whose name without its
    extension is the class name.  [T.v.bak] without its extension is
    [T.v], not [T], so the first directory with a definition file of [T]
    is [/w/b]; the code, which cuts the name at its first dot, stops at
    [/w/a]. *)
Lemma find_module_setup_dir_not_extension_stripped :
  find_module_setup_dir "" "" (fun _ => "") Sample.t_core "/w" Sample.t_world
  = (Sample.t_world, inr "/w/a")
  /\ spec_strip_extension "T.v.bak" = "T.v"
  /\ spec_search_walk (class_name Sample.t_core) (os_walk Sample.t_world "/w")
     = Some "/w/b".
Proof. vm_compute. repeat split. Qed.

(** ** The report *)

(** C7, as the code has it.  [print_build_dir] prints [../<name>_<version>]
    and stores that text in [build_dir]; every other attribute, the class,
    the tree, the working directory and the log are left as they were. *)
Theorem print_build_dir_effect
    {csr_gen_t reg_table_t : Type} (repr_list : list string -> string)
    (self : obj) (w : @world csr_gen_t reg_table_t) (name version : value) :
  attrs self !! "name" = Some name ->
  attrs self !! "version" = Some version ->
  let path := "../" +:+ format repr_list name +:+ "_" +:+ format repr_list version in
  exists self',
    print_build_dir repr_list self w
    = (World (fs w) (cwd w) (stdout w ++ [path]) (trace w), inr self')
    /\ attrs self' !! "build_dir" = Some (VStr path)
    /\ (forall k, k <> "build_dir" -> attrs self' !! k = attrs self !! k)
    /\ class_name self' = class_name self.
Proof.
  intros Hname Hversion path.
  exists (setattr "build_dir" (VStr path) self).
  unfold print_build_dir, bind, getattr. rewrite Hname, Hversion. simpl.
  rewrite lookup_insert_eq. simpl. split_and!; try done.
  - apply lookup_insert_eq.
  - intros k Hk. by rewrite lookup_insert_ne.
Qed.

Lemma print_build_dir_effect_witness :
  exists self',
    print_build_dir (fun _ => "") Sample.foo Sample.build_world
    = (World Sample.build_tree ["w"; "proj"] ["../Foo_1.0"] [], inr self')
    /\ attrs self' !! "build_dir" = Some (VStr "../Foo_1.0")
    /\ (forall k, k <> "build_dir" -> attrs self' !! k = attrs Sample.foo !! k)
    /\ class_name self' = class_name Sample.foo.
Proof.
  apply (print_build_dir_effect (fun _ => "") Sample.foo Sample.build_world
           (VStr "Foo") (VStr "1.0")); vm_compute; reflexivity.
Defined.

(** C7, as the spec words it, fails: the report changes [build_dir].  A
    descriptor built as a top core has [../Foo_1.0/build] there, and
    [../Foo_1.0] after the report. *)
Lemma print_build_dir_changes_build_dir :
  attrs Sample.foo !! "build_dir" = Some (VStr "../Foo_1.0/build")
  /\ exists self',
       snd (print_build_dir (fun _ => "") Sample.foo Sample.build_world) = inr self'
       /\ attrs self' !! "build_dir" = Some (VStr "../Foo_1.0")
       /\ attrs self' !! "build_dir" <> attrs Sample.foo !! "build_dir".
Proof.
  split; [vm_compute; reflexivity |].
  eexists. split; [vm_compute; reflexivity |].
  split; [vm_compute; reflexivity |]. vm_compute. discriminate.
Qed.

(** ** The construction pipeline *)

Import RunFacts.

Ltac silent_tac :=
  first
    [ apply silent_ret | apply silent_raise | apply silent_getattr
    | apply silent_getattr_str | apply silent_getcwd | apply silent_print
    | apply silent_call_ | apply silent_call
    | apply silent_find_module_setup_dir | apply silent_create_build_dir
    | apply silent_remove_duplicate_sources | apply silent_replace_snippet_includes ].

Ltac emits_tac :=
  repeat
    lazymatch goal with
    | |- emits _ (bind _ _) => apply emits_bind; [| intros ?]
    | |- emits _ (log _) => apply emits_log; simpl; tauto
    | |- emits _ (call_generate_csr _ _) =>
        apply emits_call_generate_csr; intros ?; simpl; tauto
    | |- emits _ (let '(_, _) := ?r in _) => destruct r as [? [? ?]]
    | |- emits _ _ => apply emits_silent; silent_tac
    end.

Ltac traced_tac :=
  repeat
    lazymatch goal with
    | |- traced (bind (call_generate_csr _ _) _) _ => fail
    | |- traced (bind _ _) _ => eapply traced_bind; [| intros ?]
    | |- traced (log _) _ => apply traced_log
    | |- traced _ _ => apply traced_silent; silent_tac
    end.

Section Pipeline.

Context {csr_gen_t reg_table_t : Type}.
Variables (FAIL ENDC : string) (repr_list : list string -> string).
Variable ext : @externals csr_gen_t reg_table_t.

Lemma init_sub_emits self purpose topdir :
  emits (fun e => ~ top_only e) (__init__ FAIL ENDC repr_list ext self false purpose topdir).
Proof.
  unfold __init__. cbv beta iota zeta. emits_tac.
Qed.

Ltac flatten :=
  repeat
    match goal with
    | H : exists _, _ |- _ => destruct H as [? H]
    | H : _ /\ _ |- _ => destruct H as [? H]
    end; subst; simpl.

Lemma init_top_traced self purpose topdir :
  traced (__init__ FAIL ENDC repr_list ext self true purpose topdir)
    (fun t => exists csr_gen_obj reg_table,
       t = [EvSuperInit; EvFindModuleSetupDir; EvCreateBuildDir; EvFlowsSetup;
            EvCopyRenameSetupDirectory; EvConfigBuildMk; EvGenerateConfs;
            EvGenerateParams; EvGeneratePorts;
            EvGenerateCsr (inr (csr_gen_obj, reg_table));
            EvReplaceSnippetIncludes; EvRemoveDuplicateSources;
            EvGenerateDocs csr_gen_obj reg_table]).
Proof.
  eapply traced_weaken.
  - unfold __init__. cbv beta iota zeta. traced_tac.
    eapply traced_bind_csr. intros s c t. cbv beta iota. traced_tac.
  - intros t Ht. cbv beta in Ht. flatten. eauto.
Qed.

Lemma init_sub_traced self purpose topdir :
  traced (__init__ FAIL ENDC repr_list ext self false purpose topdir)
    (fun t => exists csr_gen_obj reg_table,
       t = [EvSuperInit; EvFindModuleSetupDir;
            EvCopyRenameSetupDirectory; EvConfigBuildMk; EvGenerateConfs;
            EvGenerateParams; EvGeneratePorts;
            EvGenerateCsr (inr (csr_gen_obj, reg_table))]).
Proof.
  eapply traced_weaken.
  - unfold __init__. cbv beta iota zeta. traced_tac.
    eapply traced_bind_csr. intros s c t. cbv beta iota. traced_tac.
  - intros t Ht. cbv beta in Ht. flatten. eauto.
Qed.




(** One step of a run that returns: a call of a generator gives its
    equation, any other statement that it kept the tree. *)
Ltac tree_tac :=
  first
    [ apply TreeFacts.tree_kept_log | apply TreeFacts.tree_kept_ret
    | apply TreeFacts.tree_kept_getattr | apply TreeFacts.tree_kept_getcwd
    | apply TreeFacts.tree_kept_find_module_setup_dir ].

Ltac chain_run H :=
  repeat
    lazymatch type of H with
    | bind (call_generate_csr _ _) _ _ = _ => fail
    | bind (call_ _ _) _ _ = _ =>
        let Hc := fresh "Hgen" in
        apply bind_inr in H as (? & ? & [Hc _]%TreeFacts.call__run & H)
    | bind ?m _ _ = _ =>
        let Hk := fresh "Hkept" in
        apply bind_inr in H as (? & ? & Hk & H);
        apply (ltac:(tree_tac) : tree_kept m) in Hk
    end.

Ltac skip_run H :=
  repeat
    lazymatch type of H with
    | bind (call_generate_csr _ _) _ _ = _ => fail
    | bind _ _ _ = _ => apply bind_inr in H as (? & ? & _ & H)
    end.

Ltac same_tree :=
  repeat match goal with Hk : fs _ = fs _ |- _ => rewrite Hk in *; clear Hk end.

(** The construction of a sub-core that returns is the chain of the
    seven calls: each generator is handed the tree the one before it
    left, and the descriptor and the tree of the result are those the
    register phase left. *)
Lemma init_sub_chain self purpose topdir w w' self' :
  __init__ FAIL ENDC repr_list ext self false purpose topdir w = (w', inr self') ->
  exists s0 n0 s1 s2 n2 s3 n3 s4 n4 s5 n5 s6 n6 csr_gen_obj reg_table,
    super_init ext self (fs w) = (s0, n0, inr tt)
    /\ copy_rename_setup_directory ext s1 n0 = (s2, n2, inr tt)
    /\ config_build_mk ext s2 n2 = (s3, n3, inr tt)
    /\ generate_confs ext s3 n3 = (s4, n4, inr tt)
    /\ generate_params ext s4 n4 = (s5, n5, inr tt)
    /\ generate_ports ext s5 n5 = (s6, n6, inr tt)
    /\ generate_csr ext s6 n6 = (self', fs w', inr (csr_gen_obj, reg_table)).
Proof.
  intros H. unfold __init__ in H. cbv beta iota zeta in H.
  chain_run H.
  apply bind_inr in H as (w1 & [s7 [c t]] & [Hcsr _]%TreeFacts.call_generate_csr_run & H).
  cbv beta iota in H. injection H as <- <-.
  same_tree. do 15 eexists. split_and!; eassumption.
Qed.

(** The end of the construction of a top core that returns: the
    resolution of the includes is handed the tree the register phase
    left, the deduplication the tree the resolution left, and the
    documentation the tree the deduplication left, with the generator
    object and the register table that the register phase returned; what
    the documentation returns is the result. *)
Lemma init_top_chain self purpose topdir w w' self' :
  __init__ FAIL ENDC repr_list ext self true purpose topdir w = (w', inr self') ->
  exists s6 n6 s7 csr_gen_obj reg_table setup_dir build_dir ignore_snippets
         (w7 w8 w9 : @world csr_gen_t reg_table_t),
    generate_csr ext s6 n6 = (s7, fs w7, inr (csr_gen_obj, reg_table))
    /\ attrs s7 !! "setup_dir" = Some setup_dir
    /\ attrs s7 !! "build_dir" = Some build_dir
    /\ attrs s7 !! "ignore_snippets" = Some ignore_snippets
    /\ replace_includes ext setup_dir build_dir ignore_snippets (fs w7) = (fs w8, inr tt)
    /\ cwd w8 = cwd w7
    /\ _remove_duplicate_sources s7 w8 = (w9, inr tt)
    /\ generate_docs ext s7 csr_gen_obj reg_table (fs w9) = (self', fs w', inr tt)
    /\ exists tr, trace w' = tr ++ [EvGenerateDocs csr_gen_obj reg_table].
Proof.
  intros H. unfold __init__ in H. cbv beta iota zeta in H.
  skip_run H.
  apply bind_inr in H as (w7 & [s7 [c t]] & [Hcsr _]%TreeFacts.call_generate_csr_run & H).
  cbv beta iota in H.
  apply bind_inr in H as (wa & [] & [Ea Ca]%TreeFacts.log_run & H).
  apply bind_inr in H as (wb & [] & Hrep & H).
  apply TreeFacts.replace_snippet_includes_run in Hrep
    as (sd & bd & ig & Hsd & Hbd & Hig & Hrep & Cb).
  apply bind_inr in H as (w8 & [] & [Ec Cc]%TreeFacts.log_run & H).
  apply bind_inr in H as (w9 & [] & Hdedup & H).
  apply bind_inr in H as (wd & [] & Hlog & H).
  pose proof (silent_call_ _ _ _ _ _ H) as Htr.
  pose proof (TreeFacts.log_run _ _ _ _ Hlog) as [Ed Cd].
  injection Hlog as <-. cbn [trace] in Htr.
  apply TreeFacts.call__run in H as [Hdocs _].
  match goal with
  | Hc : generate_csr ext ?s ?n = _ |- _ => exists s, n, s7, c, t, sd, bd, ig, w7, w8, w9
  end.
  split_and!; try done.
  - by rewrite Ec, <- Ea.
  - by rewrite Cc, Cb, Ca.
  - by exists (trace w9).
Qed.

(** Nothing of the construction of a sub-core goes through the
    collaborators of the top core: with other scaffolds, another resolver
    of includes, another generator of documentation and another library
    directory the run is the same, however it ends. *)
Lemma init_sub_independent (ext' : @externals csr_gen_t reg_table_t)
      self purpose topdir w :
  super_init ext' = super_init ext ->
  copy_rename_setup_directory ext' = copy_rename_setup_directory ext ->
  config_build_mk ext' = config_build_mk ext ->
  generate_confs ext' = generate_confs ext ->
  generate_params ext' = generate_params ext ->
  generate_ports ext' = generate_ports ext ->
  generate_csr ext' = generate_csr ext ->
  __init__ FAIL ENDC repr_list ext' self false purpose topdir w
  = __init__ FAIL ENDC repr_list ext self false purpose topdir w.
Proof.
  intros E1 E2 E3 E4 E5 E6 E7. unfold __init__, call_generate_csr.
  cbv beta iota zeta. by rewrite E1, E2, E3, E4, E5, E6, E7.
Qed.

End Pipeline.

(** C2.  A descriptor constructed with [is_top] false: its construction,
    when it returns, is the chain of the constructor of the super class,
    the copy of the setup directory, the four configuration generators
    and the register phase, each handed the tree the one before it left,
    and the descriptor and the tree of the result are those the register
    phase left; so the build tree was not created, the flow scaffolds not
    copied, and nothing ran after the register phase: no resolution of
    includes, no deduplication, no documentation.  However the
    construction ends, it is the same with any other scaffolds, resolver
    of includes, generator of documentation and library directory, and
    its log has none of the five steps.
    A descriptor constructed with [is_top] true, when its construction
    returns: the resolver of the includes was handed the tree the
    register phase left, the deduplication the tree the resolver left,
    and the generator of the documentation the tree the deduplication
    left, together with the generator object and the register table that
    the register phase returned; its result is the result of the
    construction.  The log lists the thirteen steps in this order. *)
Theorem init_phase_order
    {csr_gen_t reg_table_t : Type} (FAIL ENDC : string)
    (repr_list : list string -> string) (ext : @externals csr_gen_t reg_table_t)
    (self : obj) (purpose topdir : string) (w : world) :
  (forall w' self',
      __init__ FAIL ENDC repr_list ext self false purpose topdir w = (w', inr self') ->
      exists s0 n0 s1 s2 n2 s3 n3 s4 n4 s5 n5 s6 n6 csr_gen_obj reg_table,
        super_init ext self (fs w) = (s0, n0, inr tt)
        /\ copy_rename_setup_directory ext s1 n0 = (s2, n2, inr tt)
        /\ config_build_mk ext s2 n2 = (s3, n3, inr tt)
        /\ generate_confs ext s3 n3 = (s4, n4, inr tt)
        /\ generate_params ext s4 n4 = (s5, n5, inr tt)
        /\ generate_ports ext s5 n5 = (s6, n6, inr tt)
        /\ generate_csr ext s6 n6 = (self', fs w', inr (csr_gen_obj, reg_table)))
  /\ (forall ext' : @externals csr_gen_t reg_table_t,
         super_init ext' = super_init ext ->
         copy_rename_setup_directory ext' = copy_rename_setup_directory ext ->
         config_build_mk ext' = config_build_mk ext ->
         generate_confs ext' = generate_confs ext ->
         generate_params ext' = generate_params ext ->
         generate_ports ext' = generate_ports ext ->
         generate_csr ext' = generate_csr ext ->
         __init__ FAIL ENDC repr_list ext' self false purpose topdir w
         = __init__ FAIL ENDC repr_list ext self false purpose topdir w)
  /\ (forall w' r,
         __init__ FAIL ENDC repr_list ext self false purpose topdir w = (w', r) ->
         exists t, trace w' = trace w ++ t /\ Forall (fun e => ~ top_only e) t)
  /\ (forall w' self',
         __init__ FAIL ENDC repr_list ext self true purpose topdir w = (w', inr self') ->
         exists s6 n6 s7 csr_gen_obj reg_table setup_dir build_dir ignore_snippets
                (w7 w8 w9 : @world csr_gen_t reg_table_t),
           generate_csr ext s6 n6 = (s7, fs w7, inr (csr_gen_obj, reg_table))
           /\ attrs s7 !! "setup_dir" = Some setup_dir
           /\ attrs s7 !! "build_dir" = Some build_dir
           /\ attrs s7 !! "ignore_snippets" = Some ignore_snippets
           /\ replace_includes ext setup_dir build_dir ignore_snippets (fs w7)
              = (fs w8, inr tt)
           /\ cwd w8 = cwd w7
           /\ _remove_duplicate_sources s7 w8 = (w9, inr tt)
           /\ generate_docs ext s7 csr_gen_obj reg_table (fs w9) = (self', fs w', inr tt)
           /\ trace w' = trace w ++
                [EvSuperInit; EvFindModuleSetupDir; EvCreateBuildDir; EvFlowsSetup;
                 EvCopyRenameSetupDirectory; EvConfigBuildMk; EvGenerateConfs;
                 EvGenerateParams; EvGeneratePorts;
                 EvGenerateCsr (inr (csr_gen_obj, reg_table));
                 EvReplaceSnippetIncludes; EvRemoveDuplicateSources;
                 EvGenerateDocs csr_gen_obj reg_table]).
Proof.
  split_and!.
  - intros w' self' H. by eapply init_sub_chain.
  - intros ext'. apply init_sub_independent.
  - intros w' r H. by eapply init_sub_emits.
  - intros w' self' H.
    destruct (init_top_chain FAIL ENDC repr_list ext self purpose topdir _ _ _ H)
      as (s6 & n6 & s7 & c & t & sd & bd & ig & w7 & w8 & w9
          & Hcsr & Hsd & Hbd & Hig & Hrep & Hcwd & Hdedup & Hdocs & tr0 & Etr).
    destruct (init_top_traced FAIL ENDC repr_list ext self purpose topdir _ _ _ H)
      as (tr & E & c' & t' & ->).
    exists s6, n6, s7, c, t, sd, bd, ig, w7, w8, w9. split_and!; try done.
    rewrite E in Etr.
    change (trace w ++
            [EvSuperInit; EvFindModuleSetupDir; EvCreateBuildDir; EvFlowsSetup;
             EvCopyRenameSetupDirectory; EvConfigBuildMk; EvGenerateConfs;
             EvGenerateParams; EvGeneratePorts; EvGenerateCsr (inr (c', t'));
             EvReplaceSnippetIncludes; EvRemoveDuplicateSources; EvGenerateDocs c' t'])
      with (trace w ++
            [EvSuperInit; EvFindModuleSetupDir; EvCreateBuildDir; EvFlowsSetup;
             EvCopyRenameSetupDirectory; EvConfigBuildMk; EvGenerateConfs;
             EvGenerateParams; EvGeneratePorts; EvGenerateCsr (inr (c', t'));
             EvReplaceSnippetIncludes; EvRemoveDuplicateSources] ++ [EvGenerateDocs c' t'])
      in Etr.
    rewrite app_assoc in Etr. apply app_inj_tail in Etr as [_ [= -> ->]].
    exact E.
Qed.

Lemma init_phase_order_witness :
  (exists s0 n0 s1 s2 n2 s3 n3 s4 n4 s5 n5 s6 n6 csr_gen_obj reg_table,
      super_init Sample.ext (Obj "Bar" ∅) (fs (fst Sample.run_foo)) = (s0, n0, inr tt)
      /\ copy_rename_setup_directory Sample.ext s1 n0 = (s2, n2, inr tt)
      /\ config_build_mk Sample.ext s2 n2 = (s3, n3, inr tt)
      /\ generate_confs Sample.ext s3 n3 = (s4, n4, inr tt)
      /\ generate_params Sample.ext s4 n4 = (s5, n5, inr tt)
      /\ generate_ports Sample.ext s5 n5 = (s6, n6, inr tt)
      /\ generate_csr Sample.ext s6 n6
         = (Sample.built Sample.run_bar, fs (fst Sample.run_bar),
            inr (csr_gen_obj, reg_table)))
  /\ (exists s6 n6 s7 csr_gen_obj reg_table setup_dir build_dir ignore_snippets
             (w7 w8 w9 : @world unit unit),
        generate_csr Sample.ext s6 n6 = (s7, fs w7, inr (csr_gen_obj, reg_table))
        /\ attrs s7 !! "setup_dir" = Some setup_dir
        /\ attrs s7 !! "build_dir" = Some build_dir
        /\ attrs s7 !! "ignore_snippets" = Some ignore_snippets
        /\ replace_includes Sample.ext setup_dir build_dir ignore_snippets (fs w7)
           = (fs w8, inr tt)
        /\ cwd w8 = cwd w7
        /\ _remove_duplicate_sources s7 w8 = (w9, inr tt)
        /\ generate_docs Sample.ext s7 csr_gen_obj reg_table (fs w9)
           = (Sample.built Sample.run_foo, fs (fst Sample.run_foo), inr tt)
        /\ trace (fst Sample.run_foo) = trace Sample.start_world ++
             [EvSuperInit; EvFindModuleSetupDir; EvCreateBuildDir; EvFlowsSetup;
              EvCopyRenameSetupDirectory; EvConfigBuildMk; EvGenerateConfs;
              EvGenerateParams; EvGeneratePorts;
              EvGenerateCsr (inr (csr_gen_obj, reg_table));
              EvReplaceSnippetIncludes; EvRemoveDuplicateSources;
              EvGenerateDocs csr_gen_obj reg_table]).
Proof.
  split.
  - apply (proj1 (init_phase_order "" "" (fun _ => "") Sample.ext (Obj "Bar" ∅)
                    "hardware" "../Foo_1.0/build" (fst Sample.run_foo))
             (fst Sample.run_bar) (Sample.built Sample.run_bar)).
    vm_compute. reflexivity.
  - apply (proj2 (proj2 (proj2
             (init_phase_order "" "" (fun _ => "") Sample.ext (Obj "Foo" ∅)
                "hardware" "." Sample.start_world)))
             (fst Sample.run_foo) (Sample.built Sample.run_foo)).
    vm_compute. reflexivity.
Defined.

(** What the two sample runs leave in the log. *)
Example init_sample_traces :
  trace (fst Sample.run_foo)
  = [EvSuperInit; EvFindModuleSetupDir; EvCreateBuildDir; EvFlowsSetup;
     EvCopyRenameSetupDirectory; EvConfigBuildMk; EvGenerateConfs;
     EvGenerateParams; EvGeneratePorts; EvGenerateCsr (inr (tt, tt));
     EvReplaceSnippetIncludes; EvRemoveDuplicateSources; EvGenerateDocs tt tt]
  /\ trace (fst Sample.run_bar)
     = trace (fst Sample.run_foo)
       ++ [EvSuperInit; EvFindModuleSetupDir; EvCopyRenameSetupDirectory;
           EvConfigBuildMk; EvGenerateConfs; EvGenerateParams; EvGeneratePorts;
           EvGenerateCsr (inr (tt, tt))].
Proof. vm_compute. split; reflexivity. Qed.

(** ** The build directory of a descriptor *)





(** ** The build directory *)

Import MakeFacts.

Section BuildDir.

Context {csr_gen_t reg_table_t : Type}.
Implicit Types w : @world csr_gen_t reg_table_t.





End BuildDir.



(** The tree that the call leaves for the top core [Foo] 1.0. *)
Example create_build_dir_sample :
  fs (fst (__create_build_dir "" "" (fun _ => "") Sample.ext Sample.foo Sample.start_world))
  = FS.Dir
      [("w", FS.Dir
         [("lib", FS.Dir [("build.mk", FS.File "all:")]);
          ("proj", FS.Dir [("Foo.py", FS.File "class Foo"); ("Bar.py", FS.File "class Bar")]);
          ("Foo_1.0", FS.Dir
             [("build", FS.Dir
                [("hardware", FS.Dir [("src", FS.Dir []);
                                      ("simulation", FS.Dir [("src", FS.Dir [])]);
                                      ("fpga", FS.Dir [("src", FS.Dir [])])]);
                 ("doc", FS.Dir [("tsrc", FS.Dir [])]);
                 ("Makefile", FS.File "all:")])])])].
Proof. vm_compute. reflexivity. Qed.

(** A file where a directory is to be made stops the call. *)
Example create_build_dir_file_in_the_way :
  snd (__create_build_dir "" "" (fun _ => "") Sample.ext Sample.foo
         (World (FS.Dir [("w", FS.Dir [("lib", FS.Dir [("build.mk", FS.File "all:")]);
                                       ("proj", FS.Dir []);
                                       ("Foo_1.0", FS.File "")])])
                ["w"; "proj"] [] [] : @world unit unit))
  = inl NotADirectoryError.
Proof. vm_compute. reflexivity. Qed.

(** * Further properties of the script *)

(** ** [find_dict_in_list] *)

(** X1.  What [find_dict_in_list] returns is the first dictionary of the
    list whose ["name"] equals the name asked for: it is an element of the
    list, and the elements before it all have a ["name"], a different
    one. *)
Theorem find_dict_in_list_first
    (FAIL ENDC : string) (repr_list : list string -> string)
    (list_obj : list (gmap string value)) (name : value) (d : gmap string value) :
  find_dict_in_list FAIL ENDC repr_list list_obj name = inr d ->
  exists before after,
    list_obj = before ++ d :: after
    /\ d !! "name" = Some name
    /\ Forall (fun i => exists v, i !! "name" = Some v /\ v <> name) before.
Proof.
  induction list_obj as [|i l IH]; simpl; [done |].
  destruct (i !! "name") as [v|] eqn:Hi; [| done].
  case_bool_decide as Hv.
  - intros [= <-]. subst v. exists [], l. by split_and!.
  - intros (before & after & -> & Hd & Hb)%IH.
    exists (i :: before), after. split_and!; [done | done |].
    constructor; [by exists v | done].
Qed.

Lemma find_dict_in_list_first_witness :
  exists before after,
    MoreSample.regs = before ++ (<["name" := VStr "status"]> ∅) :: after
    /\ (<["name" := VStr "status"]> ∅ : gmap string value) !! "name" = Some (VStr "status")
    /\ Forall (fun i : gmap string value =>
                 exists v, i !! "name" = Some v /\ v <> VStr "status") before.
Proof.
  apply (find_dict_in_list_first "" "" (fun _ => "") MoreSample.regs (VStr "status")).
  vm_compute. reflexivity.
Defined.

(** X2.  In a list where every dictionary has a ["name"] and no two have
    the same, each dictionary is found by its own name. *)
Theorem find_dict_in_list_by_name
    (FAIL ENDC : string) (repr_list : list string -> string)
    (list_obj : list (gmap string value)) (d : gmap string value) (name : value) :
  Forall (fun i : gmap string value => is_Some (i !! "name")) list_obj ->
  NoDup (map (fun i : gmap string value => i !! "name") list_obj) ->
  d ∈ list_obj -> d !! "name" = Some name ->
  find_dict_in_list FAIL ENDC repr_list list_obj name = inr d.
Proof.
  induction list_obj as [|i l IH]; intros Hall Hnd Hin Hd; [by apply elem_of_nil in Hin |].
  apply Forall_cons in Hall as [[v Hv] Hall]. simpl in Hnd.
  apply NoDup_cons in Hnd as [Hi Hnd]. simpl. rewrite Hv.
  apply elem_of_cons in Hin as [-> | Hin].
  - rewrite Hd in Hv. injection Hv as <-. by rewrite bool_decide_eq_true_2.
  - case_bool_decide as Hvn; [| by apply IH].
    subst v. exfalso. apply Hi. rewrite Hv, <- Hd.
    apply list_elem_of_fmap. by exists d.
Qed.

Lemma find_dict_in_list_by_name_witness :
  find_dict_in_list "" "" (fun _ => "") MoreSample.regs (VStr "data")
  = inr (<["name" := VStr "data"]> (<["rw" := VBool true]> ∅)).
Proof.
  apply find_dict_in_list_by_name.
  - apply (bool_decide_unpack _). vm_compute. exact I.
  - apply (bool_decide_unpack _). vm_compute. exact I.
  - unfold MoreSample.regs. rewrite !elem_of_cons. by right; right; left.
  - vm_compute. reflexivity.
Defined.

(** X3.  The two ways [find_dict_in_list] fails.  When every dictionary
    has a ["name"] other than the one asked for (an empty list too), it
    raises its own exception, whose message has the name in it.  When a
    dictionary without ["name"] comes before any match, the lookup
    [i["name"]] raises [KeyError], even if a match comes later. *)
Theorem find_dict_in_list_errors
    (FAIL ENDC : string) (repr_list : list string -> string) (name : value) :
  (forall list_obj,
      Forall (fun i : gmap string value => exists v, i !! "name" = Some v /\ v <> name)
             list_obj ->
      exists msg,
        find_dict_in_list FAIL ENDC repr_list list_obj name = inl (Dicts.Exception msg)
        /\ Str.contains msg (format repr_list name))
  /\ (forall before i after,
         Forall (fun i : gmap string value => exists v, i !! "name" = Some v /\ v <> name)
                before ->
         i !! "name" = None ->
         find_dict_in_list FAIL ENDC repr_list (before ++ i :: after) name
         = inl (Dicts.KeyError "name")).
Proof.
  split.
  - intros l Hall. eexists. split.
    + induction Hall as [|i l (v & Hv & Hne) Hl IH]; simpl; [reflexivity |].
      rewrite Hv, bool_decide_eq_false_2 by done. exact IH.
    + exists (FAIL +:+ "Could not find element with name: "), ENDC.
      by rewrite !StrFacts.sapp_assoc.
  - intros before i after Hall Hi.
    induction Hall as [|j l (v & Hv & Hne) Hl IH]; simpl.
    + by rewrite Hi.
    + rewrite Hv, bool_decide_eq_false_2 by done. exact IH.
Qed.

Lemma find_dict_in_list_errors_witness :
  (exists msg,
      find_dict_in_list "<" ">" (fun _ => "") MoreSample.regs (VStr "irq")
      = inl (Dicts.Exception msg)
      /\ Str.contains msg "irq")
  /\ find_dict_in_list "<" ">" (fun _ => "") MoreSample.broken_regs (VStr "data")
     = inl (Dicts.KeyError "name").
Proof.
  pose proof (find_dict_in_list_errors "<" ">" (fun _ => "")) as H.
  split.
  - apply (proj1 (H (VStr "irq")) MoreSample.regs).
    repeat constructor; eexists; (split; [vm_compute; reflexivity | discriminate]).
  - apply (proj2 (H (VStr "data")) [<["name" := VStr "ctrl"]> ∅] (<["rw" := VBool true]> ∅)
             [<["name" := VStr "data"]> ∅]).
    + repeat constructor. eexists. split; [vm_compute; reflexivity | discriminate].
    + vm_compute. reflexivity.
Defined.

(** ** [clean_build_dir] *)

Module CleanFacts.

(** Where there is no directory [shutil.rmtree] changes nothing. *)
Lemma rmtree_id p : forall n, ~ FS.is_dir_at n p -> Shutil.rmtree p n = n.
Proof.
  induction p as [|c p IH]; intros n Hnd.
  { destruct n as [d | es]; [done |]. destruct Hnd. by exists es. }
  destruct n as [d | es]; [done |]. simpl.
  destruct (FS.lookup_entry c es) as [x|] eqn:Hx; [| done].
  destruct p as [|c' p].
  - destruct x as [d | es']; [done |]. destruct Hnd. exists es'. by rewrite get_cons, Hx.
  - rewrite IH; [by rewrite set_entry_id |].
    intros [es' Hes']. apply Hnd. exists es'. by rewrite get_cons, Hx.
Qed.

Lemma rmtree_unfold c c' p es :
  Shutil.rmtree (c :: c' :: p) (FS.Dir es)
  = match FS.lookup_entry c es with
    | None => FS.Dir es
    | Some x => FS.Dir (FS.set_entry c (Shutil.rmtree (c' :: p) x) es)
    end.
Proof. reflexivity. Qed.

(** A directory goes with everything below it; the other paths keep what
    they lead to, the directories above keep being directories. *)
Lemma rmtree_dir p :
  forall n,
    FS.wf n = true -> p <> [] -> FS.is_dir_at n p ->
    FS.wf (Shutil.rmtree p n) = true
    /\ (forall q, p `prefix_of` q -> FS.get q (Shutil.rmtree p n) = None)
    /\ (forall q, ~ p `prefix_of` q -> ~ q `prefix_of` p ->
                  FS.get q (Shutil.rmtree p n) = FS.get q n)
    /\ (forall q, q `prefix_of` p -> q <> p ->
                  FS.is_dir_at n q /\ FS.is_dir_at (Shutil.rmtree p n) q).
Proof.
  induction p as [|c p IH]; intros n Hwf Hne [es0 Hdir]; [done |].
  destruct n as [d | es]; [done |]. rewrite get_cons in Hdir.
  destruct (FS.lookup_entry c es) as [x|] eqn:Hx; [| done].
  pose proof Hwf as (Hnd & _)%wf_Dir.
  destruct (wf_entry _ _ _ Hwf Hx) as [Hwfx _].
  destruct p as [|c' p].
  - simpl in Hdir. injection Hdir as ->. simpl. rewrite Hx. split_and!.
    + by apply wf_del_entry.
    + intros q [k ->]. simpl. rewrite lookup_del_entry by done. by rewrite decide_True.
    + intros q Hq1 Hq2. destruct q as [|c2 q]; [destruct Hq2; apply prefix_nil |].
      rewrite !get_cons, lookup_del_entry by done. case_decide as Hc; [| done].
      subst c2. destruct Hq1. apply prefix_cons, prefix_nil.
    + intros q [k Hk] Hq. destruct q as [|c2 q]; [split; by eexists |].
      destruct q; [| done]. simpl in Hk. by injection Hk as ->.
  - destruct (IH x Hwfx ltac:(done) ltac:(by exists es0)) as (Hwf' & Hgone & Hframe & Hup).
    rewrite rmtree_unfold, Hx. split_and!.
    + by eapply wf_set_entry.
    + intros q [k ->]. simpl app. rewrite get_cons, lookup_set_entry, decide_True by done.
      apply Hgone. by exists k.
    + intros q Hq1 Hq2. destruct q as [|c2 q]; [destruct Hq2; apply prefix_nil |].
      rewrite !get_cons, lookup_set_entry. case_decide as Hc; [| done].
      subst c2. rewrite Hx. apply Hframe.
      * intros H. apply Hq1. by apply prefix_cons.
      * intros H. apply Hq2. by apply prefix_cons.
    + intros q Hpre Hq. destruct q as [|c2 q]; [split; by eexists |].
      pose proof (prefix_cons_inv_1 _ _ _ _ Hpre) as ->.
      apply prefix_cons_inv_2 in Hpre.
      destruct (Hup q Hpre ltac:(congruence)) as [[e1 H1] [e2 H2]].
      split; [exists e1 | exists e2]; rewrite get_cons.
      * by rewrite Hx.
      * by rewrite lookup_set_entry, decide_True.
Qed.

Lemma dotdot_ne (s : string) : "../" +:+ s <> "".
Proof. by rewrite !sapp_cons. Qed.

End CleanFacts.

(** X4.  [clean_build_dir] where [../<name>_<version>] does not exist:
    no error, [make] is not run (whatever it would do), the tree is left
    as it is; the line is printed and [build_dir] is set to that path. *)
Theorem clean_build_dir_absent
    {csr_gen_t reg_table_t : Type} (ENDC : string) (repr_list : list string -> string)
    (run_command : string -> FS.node -> FS.node)
    (self : obj) (w : @world csr_gen_t reg_table_t) (name version : value) :
  attrs self !! "name" = Some name ->
  attrs self !! "version" = Some version ->
  let path := "../" +:+ format repr_list name +:+ "_" +:+ format repr_list version in
  FS.get (Path.abspath (cwd w) path) (fs w) = None ->
  clean_build_dir ENDC repr_list run_command self w
  = (World (fs w) (cwd w)
           (stdout w ++ [ENDC +:+ "Cleaning build directory: " +:+ path +:+ ENDC])
           (trace w),
     inr (setattr "build_dir" (VStr path) self)).
Proof.
  intros Hname Hversion path Hget.
  unfold clean_build_dir, bind, getattr_str, getattr, bind, print, ret,
    os_path_exists, shutil_rmtree.
  rewrite Hname. cbv beta iota. rewrite Hversion. cbv beta iota zeta.
  rewrite RunFacts.attrs_setattr_eq. cbv beta iota. cbn [format cwd fs].
  fold path. rewrite !(bool_decide_eq_false_2 (path = "")) by apply CleanFacts.dotdot_ne.
  rewrite Hget, (bool_decide_eq_false_2 (is_Some None)) by (by intros [? ?]).
  cbv beta iota. cbn [cwd fs].
  rewrite CleanFacts.rmtree_id; [done |].
  intros [es Hes]. by rewrite Hes in Hget.
Qed.

Lemma clean_build_dir_absent_witness :
  clean_build_dir ">" (fun _ => "") MoreSample.make_clean Sample.foo Sample.start_world
  = (World (fs Sample.start_world) ["w"; "proj"]
           [">Cleaning build directory: ../Foo_1.0>"] [],
     inr (setattr "build_dir" (VStr "../Foo_1.0") Sample.foo)).
Proof.
  apply (clean_build_dir_absent ">" (fun _ => "") MoreSample.make_clean Sample.foo
           Sample.start_world (VStr "Foo") (VStr "1.0")); vm_compute; reflexivity.
Defined.

(** X5.  [clean_build_dir] where [../<name>_<version>] is a direct path
    (no [..] hidden in the name or the version) and leads to a directory:
    [make -C <path> clean] is run first, and of the tree it leaves
    (taken to be well formed, with the directory still there) nothing
    remains at or below the path, while every path beside it leads to what
    it led to.  No error is raised. *)
Theorem clean_build_dir_removes
    {csr_gen_t reg_table_t : Type} (ENDC : string) (repr_list : list string -> string)
    (run_command : string -> FS.node -> FS.node)
    (self : obj) (w : @world csr_gen_t reg_table_t) (name version : value) :
  attrs self !! "name" = Some name ->
  attrs self !! "version" = Some version ->
  let path := "../" +:+ format repr_list name +:+ "_" +:+ format repr_list version in
  let made := run_command ("make -C " +:+ path +:+ " clean") (fs w) in
  direct_in w path = true ->
  direct_in (set_fs made w) path = true ->
  is_Some (FS.get (Path.abspath (cwd w) path) (fs w)) ->
  FS.wf made = true ->
  Path.abspath (cwd w) path <> [] ->
  FS.is_dir_at made (Path.abspath (cwd w) path) ->
  exists w',
    clean_build_dir ENDC repr_list run_command self w
    = (w', inr (setattr "build_dir" (VStr path) self))
    /\ FS.wf (fs w') = true
    /\ (forall q, Path.abspath (cwd w) path `prefix_of` q -> FS.get q (fs w') = None)
    /\ (forall q, ~ Path.abspath (cwd w) path `prefix_of` q ->
                  ~ q `prefix_of` Path.abspath (cwd w) path ->
                  FS.get q (fs w') = FS.get q made).
Proof.
  intros Hname Hversion path made _ _ Hex Hwf Hne Hdir.
  destruct (CleanFacts.rmtree_dir _ made Hwf Hne Hdir) as (Hwf' & Hgone & Hframe & _).
  eexists. split_and!.
  - unfold clean_build_dir, bind, getattr_str, getattr, bind, print, ret,
      os_path_exists, os_system, shutil_rmtree.
    rewrite Hname. cbv beta iota. rewrite Hversion. cbv beta iota zeta.
    rewrite RunFacts.attrs_setattr_eq. cbv beta iota. cbn [format cwd fs].
    fold path. rewrite !(bool_decide_eq_false_2 (path = "")) by apply CleanFacts.dotdot_ne.
    rewrite (bool_decide_eq_true_2 _ Hex).
    cbv beta iota. cbn [cwd fs set_fs]. fold made. reflexivity.
  - done.
  - done.
  - done.
Qed.

Lemma clean_build_dir_removes_witness :
  exists w',
    clean_build_dir ">" (fun _ => "") MoreSample.make_clean Sample.foo Sample.build_world
    = (w', inr (setattr "build_dir" (VStr "../Foo_1.0") Sample.foo))
    /\ FS.wf (fs w') = true
    /\ (forall q, ["w"; "Foo_1.0"] `prefix_of` q -> FS.get q (fs w') = None)
    /\ (forall q, ~ ["w"; "Foo_1.0"] `prefix_of` q -> ~ q `prefix_of` ["w"; "Foo_1.0"] ->
                  FS.get q (fs w')
                  = FS.get q (MoreSample.make_clean "make -C ../Foo_1.0 clean"
                                                    Sample.build_tree)).
Proof.
  apply (clean_build_dir_removes ">" (fun _ => "") MoreSample.make_clean Sample.foo
           Sample.build_world (VStr "Foo") (VStr "1.0")).
  - vm_compute. reflexivity.
  - vm_compute. reflexivity.
  - vm_compute. reflexivity.
  - vm_compute. reflexivity.
  - vm_compute. eauto.
  - vm_compute. reflexivity.
  - vm_compute. discriminate.
  - vm_compute. eauto.
Defined.

(** X6.  [clean_build_dir] where [../<name>_<version>] is a regular file,
    and still is one after [make -C <path> clean]: the removal fails, the
    failure is ignored, and the call returns with the file in place; the
    tree is the one [make] left. *)
Theorem clean_build_dir_keeps_file
    {csr_gen_t reg_table_t : Type} (ENDC : string) (repr_list : list string -> string)
    (run_command : string -> FS.node -> FS.node)
    (self : obj) (w : @world csr_gen_t reg_table_t) (name version : value) :
  attrs self !! "name" = Some name ->
  attrs self !! "version" = Some version ->
  let path := "../" +:+ format repr_list name +:+ "_" +:+ format repr_list version in
  let made := run_command ("make -C " +:+ path +:+ " clean") (fs w) in
  FS.is_file_at (fs w) (Path.abspath (cwd w) path) ->
  FS.is_file_at made (Path.abspath (cwd w) path) ->
  clean_build_dir ENDC repr_list run_command self w
  = (World made (cwd w)
           (stdout w ++ [ENDC +:+ "Cleaning build directory: " +:+ path +:+ ENDC])
           (trace w),
     inr (setattr "build_dir" (VStr path) self)).
Proof.
  intros Hname Hversion path made [d0 Hex] [d Hfile].
  unfold clean_build_dir, bind, getattr_str, getattr, bind, print, ret,
    os_path_exists, os_system, shutil_rmtree.
  rewrite Hname. cbv beta iota. rewrite Hversion. cbv beta iota zeta.
  rewrite RunFacts.attrs_setattr_eq. cbv beta iota. cbn [format cwd fs].
  fold path. rewrite !(bool_decide_eq_false_2 (path = "")) by apply CleanFacts.dotdot_ne.
  rewrite bool_decide_eq_true_2 by (by rewrite Hex).
  cbv beta iota. cbn [cwd fs set_fs stdout trace]. fold made.
  rewrite CleanFacts.rmtree_id; [done |].
  intros [es Hes]. by rewrite Hes in Hfile.
Qed.

Lemma clean_build_dir_keeps_file_witness :
  clean_build_dir ">" (fun _ => "") MoreSample.make_clean Sample.foo MoreSample.file_world
  = (World (fs MoreSample.file_world) ["w"; "proj"]
           [">Cleaning build directory: ../Foo_1.0>"] [],
     inr (setattr "build_dir" (VStr "../Foo_1.0") Sample.foo)).
Proof.
  apply (clean_build_dir_keeps_file ">" (fun _ => "") MoreSample.make_clean Sample.foo
           MoreSample.file_world (VStr "Foo") (VStr "1.0")).
  - vm_compute. reflexivity.
  - vm_compute. reflexivity.
  - exists "". vm_compute. reflexivity.
  - exists "". vm_compute. reflexivity.
Defined.

(** After [make clean] and the removal, only the project and nothing of
    the build of [Foo] is left of the sample tree. *)
Example clean_build_dir_sample :
  fs (fst (clean_build_dir ">" (fun _ => "") MoreSample.make_clean Sample.foo
             Sample.build_world))
  = FS.Dir [("w", FS.Dir [("proj", FS.Dir [("Foo.py", FS.File "class Foo")])])].
Proof. vm_compute. reflexivity. Qed.

(** ** More on the common files and their removal *)



(** X7.  [find_common_deep] of two direct paths compares names only: a
    relative path is in the result exactly when it leads to a file from
    both directories, whatever the two files hold. *)
Theorem find_common_deep_files
    {csr_gen_t reg_table_t : Type} (w : @world csr_gen_t reg_table_t)
    (path1 path2 s : string) :
  FS.wf (fs w) = true ->
  direct_in w path1 = true -> direct_in w path2 = true ->
  s ∈ find_common_deep w path1 path2 <->
  path1 <> "" /\ path2 <> ""
  /\ exists rel d1 d2,
       rel <> [] /\ s = Str.join Path.sep rel
       /\ FS.get (Path.abspath (cwd w) path1 ++ rel) (fs w) = Some (FS.File d1)
       /\ FS.get (Path.abspath (cwd w) path2 ++ rel) (fs w) = Some (FS.File d2).
Proof. intros Hwf _ _. by apply DedupMore.elem_of_find_common_deep. Qed.

Lemma find_common_deep_files_witness :
  "a.v" ∈ find_common_deep Sample.build_world "../Foo_1.0/build/hardware/src"
                           "../Foo_1.0/build/hardware/simulation/src".
Proof.
  apply (find_common_deep_files Sample.build_world); [vm_compute; reflexivity .. |].
  split_and!; [done | done |]. exists ["a.v"], "1", "old".
  split_and!; [done | | |]; vm_compute; reflexivity.
Defined.





(** ** More on the search for the setup directory *)

Module SearchMore.

(** The first field of a split holds no separator, and the string is that
    field alone or that field, the separator and a rest. *)
Lemma split_hd sep s :
  exists h t,
    Str.split sep s = h :: t /\ Str.mem sep h = false
    /\ (s = h \/ exists rest, s = h +:+ String sep rest).
Proof.
  induction s as [|c s (h & t & Hs & Hh & Hrest)]; simpl.
  - exists "", []. split_and!; [done | done | by left].
  - destruct (Ascii.eqb c sep) eqn:Hc.
    + apply Ascii.eqb_eq in Hc as ->. exists "", (h :: t).
      split_and!; [by rewrite Hs | done |]. right. exists s. by rewrite sapp_nil_l.
    + rewrite Hs. exists (String c h), t. split_and!; [done | by simpl; rewrite Hc |].
      destruct Hrest as [-> | [rest ->]]; [by left |].
      right. exists rest. by rewrite sapp_cons.
Qed.

Section World.

Context {csr_gen_t reg_table_t : Type}.
Implicit Types w : @world csr_gen_t reg_table_t.

(** The converse of [os_walk_file]: a file of the tree below [top] is
    listed by the walk, in the triple of its directory. *)
Lemma file_os_walk w top rel file d :
  FS.wf (fs w) = true -> top <> "" ->
  FS.get (Path.abspath (cwd w) top ++ rel ++ [file]) (fs w) = Some (FS.File d) ->
  exists root dirs files, (root, dirs, files) ∈ os_walk w top /\ file ∈ files.
Proof.
  intros Hwf Htop Hget. unfold os_walk. rewrite bool_decide_eq_false_2 by done.
  rewrite get_app in Hget.
  destruct (FS.get (Path.abspath (cwd w) top) (fs w)) as [n|] eqn:Hn; [| done].
  destruct (wf_get _ _ _ Hwf Hn) as [Hwfn _].
  rewrite get_app in Hget.
  destruct (FS.get rel n) as [[? | es]|] eqn:Hrel; [done | | done].
  rewrite get_cons in Hget.
  destruct (FS.lookup_entry file es) as [x|] eqn:Hx; [| done].
  simpl in Hget. injection Hget as ->.
  exists (fold_left Path.join rel top), (FS.dirnames es), (FS.filenames es). split.
  - apply (elem_of_walk n Hwfn). by exists rel, es.
  - apply elem_of_filenames. exists d. by apply lookup_entry_elem.
Qed.

(** A triple of the walk is a directory below [top], under the path the
    walk gives it. *)
Lemma os_walk_dir w top root dirs files file :
  FS.wf (fs w) = true ->
  (root, dirs, files) ∈ os_walk w top -> file ∈ files ->
  exists rel d,
    Path.abspath (cwd w) root = Path.abspath (cwd w) top ++ rel
    /\ FS.get (Path.abspath (cwd w) top ++ rel ++ [file]) (fs w) = Some (FS.File d).
Proof.
  intros Hwf Hin Hfile. unfold os_walk in Hin.
  case_bool_decide; [by apply elem_of_nil in Hin |].
  destruct (FS.get (Path.abspath (cwd w) top) (fs w)) as [n|] eqn:Hn;
    [| by apply elem_of_nil in Hin].
  destruct (wf_get _ _ _ Hwf Hn) as [Hwfn _].
  apply (elem_of_walk n Hwfn) in Hin as (r & es & Hget & -> & -> & ->).
  apply elem_of_filenames in Hfile as [d Hd].
  destruct (wf_get _ _ _ Hwfn Hget) as [(Hnd & _)%wf_Dir Hr].
  apply (lookup_entry_NoDup _ _ _ Hnd) in Hd.
  exists r, d. split.
  - by apply abspath_fold_join.
  - rewrite get_app, Hn, get_app, Hget. simpl. by rewrite Hd.
Qed.

End World.

End SearchMore.

(** X10.  The test of [find_module_setup_dir], [file.split(".")[0] ==
    core.__class__.__name__], for a class name, which holds no dot: a file
    matches exactly when its name is the class name or the class name
    followed by a dot and anything. *)
Theorem split_dot_0_matches (cls file : string) :
  Str.mem "." cls = false ->
  split_dot_0 file = cls <-> file = cls \/ exists rest, file = cls +:+ "." +:+ rest.
Proof.
  intros Hcls. unfold split_dot_0. split.
  - destruct (SearchMore.split_hd "." file) as (h & t & -> & _ & Hrest). simpl. intros <-.
    destruct Hrest as [-> | [rest ->]]; [by left |].
    right. exists rest. by rewrite sapp_cons, sapp_nil_l.
  - intros [-> | [rest ->]].
    + by rewrite split_no_sep.
    + rewrite sapp_cons, sapp_nil_l, split_app, split_no_sep by done. reflexivity.
Qed.

Lemma split_dot_0_matches_witness :
  split_dot_0 "T.v.bak" = "T" <-> "T.v.bak" = "T" \/ exists rest, "T.v.bak" = "T" +:+ "." +:+ rest.
Proof. apply (split_dot_0_matches "T" "T.v.bak"). reflexivity. Defined.

(** X11.  For a direct search path: when some file below the search
    root is named after the class of the core, [find_module_setup_dir]
    returns a path and raises
    nothing, also for a core without a [name]; the path returned leads to
    a directory below the search root that holds such a file, and the
    world is left as it was. *)
Theorem find_module_setup_dir_found
    {csr_gen_t reg_table_t : Type} (FAIL ENDC : string)
    (repr_list : list string -> string) (core : obj) (search_path : string)
    (w : @world csr_gen_t reg_table_t) (rel : Path.t) (file d : string) :
  FS.wf (fs w) = true ->
  search_path <> "" ->
  direct_in w search_path = true ->
  FS.get (Path.abspath (cwd w) search_path ++ rel ++ [file]) (fs w) = Some (FS.File d) ->
  split_dot_0 file = class_name core ->
  exists root rel' file' d',
    find_module_setup_dir FAIL ENDC repr_list core search_path w = (w, inr root)
    /\ Path.abspath (cwd w) root = Path.abspath (cwd w) search_path ++ rel'
    /\ FS.get (Path.abspath (cwd w) search_path ++ rel' ++ [file']) (fs w)
       = Some (FS.File d')
    /\ split_dot_0 file' = class_name core.
Proof.
  intros Hwf Hsp _ Hget Hm. unfold find_module_setup_dir.
  destruct (search_walk (class_name core) (os_walk w search_path)) as [root|] eqn:Hs.
  - apply search_walk_Some in Hs as (before & dirs & files & after & Hw & Hfm & _).
    apply first_matching_file_true in Hfm as (file' & Hin & Hm').
    destruct (SearchMore.os_walk_dir w search_path root dirs files file' Hwf)
      as (rel' & d' & Hroot & Hget'); [rewrite Hw; set_solver | done |].
    by exists root, rel', file', d'.
  - exfalso. rewrite search_walk_None in Hs.
    destruct (SearchMore.file_os_walk w search_path rel file d Hwf Hsp Hget)
      as (root & dirs & files & Hin & Hfile).
    by apply (proj1 (first_matching_file_false _ _) (Hs root dirs files Hin) file).
Qed.

Lemma find_module_setup_dir_found_witness :
  exists root rel' file' d',
    find_module_setup_dir "" "" (fun _ => "") Sample.t_core "/w" Sample.t_world
    = (Sample.t_world, inr root)
    /\ Path.abspath ["w"] root = ["w"] ++ rel'
    /\ FS.get (["w"] ++ rel' ++ [file']) Sample.t_tree = Some (FS.File d')
    /\ split_dot_0 file' = "T".
Proof.
  apply (find_module_setup_dir_found "" "" (fun _ => "") Sample.t_core "/w" Sample.t_world
           ["b"] "T.py" "class T"); vm_compute; first [reflexivity | discriminate].
Defined.

(** X12.  The search starts with the search root itself, here a direct
    path: when a file named
    after the class lies directly in it, [find_module_setup_dir] returns
    the search path as it was given, whatever the sub-directories hold. *)
Theorem find_module_setup_dir_root_first
    {csr_gen_t reg_table_t : Type} (FAIL ENDC : string)
    (repr_list : list string -> string) (core : obj) (search_path : string)
    (w : @world csr_gen_t reg_table_t) (es : list (string * FS.node)) (file d : string) :
  search_path <> "" ->
  direct_in w search_path = true ->
  FS.get (Path.abspath (cwd w) search_path) (fs w) = Some (FS.Dir es) ->
  (file, FS.File d) ∈ es ->
  split_dot_0 file = class_name core ->
  find_module_setup_dir FAIL ENDC repr_list core search_path w = (w, inr search_path).
Proof.
  intros Hsp _ Hget Hin Hm. unfold find_module_setup_dir, os_walk.
  rewrite bool_decide_eq_false_2, Hget, walk_Dir by done.
  cbn [search_walk].
  assert (first_matching_file (class_name core) (FS.filenames es) = true) as ->; [| done].
  apply first_matching_file_true. exists file. split; [| done].
  apply elem_of_filenames. by exists d.
Qed.

Lemma find_module_setup_dir_root_first_witness :
  find_module_setup_dir "" "" (fun _ => "") Sample.foo "/w/proj" Sample.start_world
  = (Sample.start_world, inr "/w/proj").
Proof.
  apply (find_module_setup_dir_root_first "" "" (fun _ => "") Sample.foo "/w/proj"
           Sample.start_world
           [("Foo.py", FS.File "class Foo"); ("Bar.py", FS.File "class Bar")]
           "Foo.py" "class Foo").
  - discriminate.
  - reflexivity.
  - vm_compute. reflexivity.
  - left.
  - vm_compute. reflexivity.
Defined.

(** ** More on the build directory *)

Module BuildMore.

Section World.

Context {csr_gen_t reg_table_t : Type}.
Variables (FAIL ENDC : string) (repr_list : list string -> string).
Variable ext : @externals csr_gen_t reg_table_t.
Implicit Types w : @world csr_gen_t reg_table_t.


End World.

End BuildMore.



(** The three exceptions of the template, each on the tree of
    [MoreSample.no_template_world] with another [/w/lib]: missing
    [build.mk], a directory [build.mk], and [/w/lib] a file. *)
Example create_build_dir_template_errors :
  let run lib :=
    snd (__create_build_dir "" "" (fun _ => "") Sample.ext Sample.foo
           (World (FS.Dir [("w", FS.Dir [("lib", lib); ("proj", FS.Dir [])])])
                  ["w"; "proj"] [] [] : @world unit unit)) in
  run (FS.Dir []) = inl FileNotFoundError
  /\ run (FS.Dir [("build.mk", FS.Dir [])]) = inl IsADirectoryError
  /\ run (FS.File "") = inl NotADirectoryError.
Proof. vm_compute. split_and!; reflexivity. Qed.



(** On a tree where [Foo] was built before, the old [Makefile] is
    replaced by the template and the source in place is kept. *)
Example create_build_dir_again :
  let n := fs (fst (__create_build_dir "" "" (fun _ => "") Sample.ext Sample.foo
                      MoreSample.rebuilt_world)) in
  FS.get ["w"; "Foo_1.0"; "build"; "Makefile"] n = Some (FS.File "all:")
  /\ FS.get ["w"; "Foo_1.0"; "build"; "hardware"; "src"; "a.v"] n = Some (FS.File "1").
Proof. vm_compute. split; reflexivity. Qed.

(** ** The constructor when the setup directory is not found *)

Module InitMore.





Section World.

Context {csr_gen_t reg_table_t : Type}.
Variables (FAIL ENDC : string) (repr_list : list string -> string).
Implicit Types w : @world csr_gen_t reg_table_t.


End World.

End InitMore.



(** ** What the construction of a sub-core leaves alone *)

(** X16.  The construction of a core that is not the top core writes
    nothing of its own to the tree: when the constructor of the super
    class and the generators it goes through leave the tree alone, the
    tree is the same after [__init__] as before, whether it returns or
    raises. *)
Theorem init_sub_leaves_tree
    {csr_gen_t reg_table_t : Type} (FAIL ENDC : string)
    (repr_list : list string -> string) (ext : @externals csr_gen_t reg_table_t)
    (self : obj) (purpose topdir : string) :
  leaves_tree (super_init ext) ->
  leaves_tree (copy_rename_setup_directory ext) ->
  leaves_tree (config_build_mk ext) ->
  leaves_tree (generate_confs ext) ->
  leaves_tree (generate_params ext) ->
  leaves_tree (generate_ports ext) ->
  leaves_tree (generate_csr ext) ->
  tree_kept (__init__ FAIL ENDC repr_list ext self false purpose topdir).
Proof.
  intros H1 H2 H3 H4 H5 H6 H7. unfold __init__. cbv beta iota zeta.
  repeat
    lazymatch goal with
    | |- tree_kept (bind _ _) => apply TreeFacts.tree_kept_bind; [| intros ?]
    | |- tree_kept (log _) => apply TreeFacts.tree_kept_log
    | |- tree_kept (ret _) => apply TreeFacts.tree_kept_ret
    | |- tree_kept (getattr _ _) => apply TreeFacts.tree_kept_getattr
    | |- tree_kept getcwd => apply TreeFacts.tree_kept_getcwd
    | |- tree_kept (call_ _ _) => by apply TreeFacts.tree_kept_call_
    | |- tree_kept (call_generate_csr _ _) => by apply TreeFacts.tree_kept_call_generate_csr
    | |- tree_kept (find_module_setup_dir _ _ _ _ _) =>
        apply TreeFacts.tree_kept_find_module_setup_dir
    | |- tree_kept (let '(_, _) := ?r in _) => destruct r as [? [? ?]]
    end.
Qed.

Lemma init_sub_leaves_tree_witness :
  tree_kept (__init__ "" "" (fun _ => "") Sample.ext (Obj "Bar" ∅) false "hardware"
               "../Foo_1.0/build").
Proof.
  apply (init_sub_leaves_tree "" "" (fun _ => "") Sample.ext (Obj "Bar" ∅) "hardware"
           "../Foo_1.0/build"); intros self n; reflexivity.
Defined.
